(** * Vector-to-raster conversion: a model of scripts/vector_to_raster.py

    The script filters a collection of polygon features carrying an integer
    attribute [DN], derives a grid from the bounds of the survivors and
    burns every feature into an 8-bit array.

    Conventions of the model.
    - Coordinates and the resolution are float64 in the script.  In the
      model of the pipeline a finite value is the rational it denotes
      ([Q]) and the operations are exact: this is the reading for the
      properties of order and sign (which way a dimension moves, when it is
      zero or negative, where a run stops), which rounding to nearest does
      not change short of overflow or underflow.  The special values that
      numpy produces on a division by zero are kept ([PInf], [NInf], [NaN]),
      because the script's control flow depends on them.  Signed zeros are
      not modelled.
    - Where the exact value of a dimension matters, the computation of the
      shape is also given on binary64 floats ([calculate_raster_shape_f64]),
      with the rounding of IEEE 754.
    - Python exceptions are values of [PyExc]; a function that may raise
      returns a [result].
    - geopandas, GEOS, rasterio and GDAL are libraries the script calls.
      Their geometric predicates are variables of a section; the parts of
      their behaviour that are arithmetic (bounds, [from_bounds], the order
      in which shapes are burned, the storage of a value in a byte) are
      written out. *)

From Stdlib Require Import String ZArith QArith Qround Qminmax Bool List Lia.
From Stdlib Require Import PrimFloat SpecFloat FloatOps DecimalString.
Import ListNotations.

Local Open Scope Z_scope.

(** ** Python exceptions and results *)

Inductive PyExc : Type :=
| ValueError (msg : string)
| OverflowError (msg : string).

Inductive result (A : Type) : Type :=
| Ok (a : A)
| Raise (e : PyExc).

Arguments Ok {A} a.
Arguments Raise {A} e.

Definition bind {A B : Type} (m : result A) (k : A -> result B) : result B :=
  match m with
  | Ok a => k a
  | Raise e => Raise e
  end.

Notation "x <- m ;; k" := (bind m (fun x => k))
  (at level 61, m at next level, right associativity).

(** ** numpy float64 values *)

Inductive float64 : Type :=
| Fin (q : Q)
| PInf
| NInf
| NaN.

Definition fsub (x y : float64) : float64 :=
  match x, y with
  | NaN, _ | _, NaN => NaN
  | Fin a, Fin b => Fin (a - b)
  | PInf, PInf | NInf, NInf => NaN
  | PInf, _ | _, NInf => PInf
  | NInf, _ | _, PInf => NInf
  end.

(** Division as numpy scalars perform it: a division by zero is a warning,
    not an exception, and yields an infinity or [NaN]. *)
Definition fdiv (x y : float64) : float64 :=
  match x, y with
  | NaN, _ | _, NaN => NaN
  | Fin a, Fin b =>
      if Qeq_bool b 0 then
        match (a ?= 0)%Q with
        | Gt => PInf
        | Lt => NInf
        | Eq => NaN
        end
      else Fin (a / b)
  | Fin _, _ => Fin 0
  | _, Fin b =>
      let pos := match x with PInf => true | _ => false end in
      if Bool.eqb pos (Qle_bool 0 b) then PInf else NInf
  | _, _ => NaN
  end.

(** [np.ceil] *)
Definition np_ceil (x : float64) : float64 :=
  match x with
  | Fin q => Fin (inject_Z (Qceiling q))
  | s => s
  end.

(** Python's [int(x)] on a float: truncation toward zero; it raises on the
    special values. *)
Definition Qtrunc (q : Q) : Z :=
  if Qle_bool 0 q then Qfloor q else Qceiling q.

Definition int_of_float (x : float64) : result Z :=
  match x with
  | Fin q => Ok (Qtrunc q)
  | PInf | NInf => Raise (OverflowError "cannot convert float infinity to integer")
  | NaN => Raise (ValueError "cannot convert float NaN to integer")
  end.

(** [0.0 * x], as it appears in the product of two affine matrices. *)
Definition zero_times (x : float64) : float64 :=
  match x with
  | Fin _ => Fin 0
  | _ => NaN
  end.

(** ** Data model *)

Definition Point : Type := (Q * Q)%type.
Definition Ring : Type := list Point.

Record Polygon : Type := mkPolygon {
  exterior : Ring;
  interiors : list Ring
}.

Inductive Geometry : Type :=
| GPolygon (p : Polygon)
| GMultiPolygon (ps : list Polygon).

(** A row of the GeoDataFrame: the geometry column may hold [None]. *)
Record Feature : Type := mkFeature {
  geometry : option Geometry;
  DN : Z
}.

Definition GeoDataFrame : Type := list Feature.

(** (minx, miny, maxx, maxy) *)
Definition BBox : Type := (Q * Q * Q * Q)%type.

Definition polygon_coords (p : Polygon) : list Point :=
  exterior p ++ concat (interiors p).

Definition coords (g : Geometry) : list Point :=
  match g with
  | GPolygon p => polygon_coords p
  | GMultiPolygon ps => flat_map polygon_coords ps
  end.

Definition feature_coords (f : Feature) : list Point :=
  match geometry f with
  | Some g => coords g
  | None => []
  end.

(** All the vertices of a collection, in order. *)
Definition all_coords (gdf : GeoDataFrame) : list Point :=
  flat_map feature_coords gdf.

(** ** filter_null_geometries *)

Definition notna (f : Feature) : bool :=
  match geometry f with
  | Some _ => true
  | None => false
  end.

Definition filter_null_geometries (gdf : GeoDataFrame) : GeoDataFrame :=
  filter notna gdf.

(** ** filter_by_dn_threshold

    [gdf[gdf['DN'] >= threshold]]; the function also prints the number of
    rows it removed, computed as a difference of lengths. *)

Definition filter_by_dn_threshold (gdf : GeoDataFrame) (threshold : Z)
  : GeoDataFrame :=
  filter (fun f => DN f >=? threshold) gdf.

Definition dn_removed_count (gdf : GeoDataFrame) (threshold : Z) : Z :=
  let initial_count := Z.of_nat (length gdf) in
  let remaining_count :=
    Z.of_nat (length (filter_by_dn_threshold gdf threshold)) in
  initial_count - remaining_count.

(** ** Bounds

    [GeoSeries.bounds] gives one row (minx, miny, maxx, maxy) per geometry,
    all [nan] for a missing or empty geometry.  For a valid polygon the
    interior rings lie inside the exterior one, so the envelope of the
    exterior ring is the envelope of all the vertices.  [total_bounds]
    takes [nanmin] / [nanmax] over the columns, and is all [nan] when no
    row has a finite entry (in particular for an empty frame). *)

Fixpoint points_bounds (ps : list Point) : option BBox :=
  match ps with
  | [] => None
  | (x, y) :: rest =>
      match points_bounds rest with
      | None => Some (x, y, x, y)
      | Some (x0, y0, x1, y1) =>
          Some (Qmin x x0, Qmin y y0, Qmax x x1, Qmax y y1)
      end
  end.

Definition bounds (f : Feature) : option BBox :=
  points_bounds (feature_coords f).

(** [nanmin] / [nanmax] of two rows: a [nan] row is ignored. *)
Definition nan_union (b1 b2 : option BBox) : option BBox :=
  match b1, b2 with
  | None, b => b
  | b, None => b
  | Some (x0, y0, x1, y1), Some (u0, v0, u1, v1) =>
      Some (Qmin x0 u0, Qmin y0 v0, Qmax x1 u1, Qmax y1 v1)
  end.

Definition finite_bounds (gdf : GeoDataFrame) : option BBox :=
  fold_right (fun f acc => nan_union (bounds f) acc) None gdf.

Definition total_bounds (gdf : GeoDataFrame)
  : float64 * float64 * float64 * float64 :=
  match finite_bounds gdf with
  | Some (x0, y0, x1, y1) => (Fin x0, Fin y0, Fin x1, Fin y1)
  | None => (NaN, NaN, NaN, NaN)
  end.

(** ** Affine transforms

    [(x, y) = (a*col + b*row + c, d*col + e*row + f)] *)

Record Affine : Type := mkAffine {
  aff_a : float64; aff_b : float64; aff_c : float64;
  aff_d : float64; aff_e : float64; aff_f : float64
}.

(** [rasterio.transform.from_bounds]:
    [Affine.translation(west, north) *
     Affine.scale((east - west) / width, (south - north) / height)],
    with the matrix product carried out. *)
Definition from_bounds (west south east north : float64) (width height : Z)
  : Affine :=
  let sx := fdiv (fsub east west) (Fin (inject_Z width)) in
  let sy := fdiv (fsub south north) (Fin (inject_Z height)) in
  {| aff_a := sx; aff_b := zero_times sy; aff_c := west;
     aff_d := zero_times sx; aff_e := sy; aff_f := north |}.

(** ** calculate_raster_params *)

Definition Shape : Type := (Z * Z)%type.   (* (rows, cols) *)

Definition RasterParams : Type :=
  ((float64 * float64 * float64 * float64) * Shape * Affine)%type.

(** The size warning the function prints; it does not change the result. *)
Definition large_raster_warning (cols rows : Z) : bool :=
  cols * rows >? 100000000.

Definition calculate_raster_params (gdf : GeoDataFrame) (resolution : Q)
  : result RasterParams :=
  let '(minx, miny, maxx, maxy) := total_bounds gdf in
  let bounds := (minx, miny, maxx, maxy) in
  let width := fsub maxx minx in
  let height := fsub maxy miny in
  cols <- int_of_float (np_ceil (fdiv width (Fin resolution))) ;;
  rows <- int_of_float (np_ceil (fdiv height (Fin resolution))) ;;
  let shape := (rows, cols) in
  let transform := from_bounds minx miny maxx maxy cols rows in
  Ok (bounds, shape, transform).

(** ** The shape in binary64

    The same computation of [cols] and [rows] (the lines
    [width = maxx - minx] to [shape = (rows, cols)]) on IEEE 754 binary64
    values, each operation rounded to nearest. *)

(** The rational a float denotes; none for the infinities and NaN. *)
Definition f64_value (x : float) : option Q :=
  match Prim2SF x with
  | S754_zero _ => Some 0%Q
  | S754_finite s m e =>
      let n := if s then Z.neg m else Z.pos m in
      Some (if 0 <=? e then inject_Z (n * 2 ^ e)
            else Qmake n (Z.to_pos (2 ^ (- e))))
  | S754_infinity _ => None
  | S754_nan => None
  end.

(** [int(np.ceil(x))]: [np.ceil] gives the least integral float that is not
    below [x], without rounding, and [int] converts it exactly; both pass
    the special values on, on which [int] raises. *)
Definition int_ceil_f64 (x : float) : result Z :=
  match Prim2SF x with
  | S754_zero _ => Ok 0
  | S754_finite s m e =>
      let n := if s then Z.neg m else Z.pos m in
      Ok (if 0 <=? e then n * 2 ^ e else - ((- n) / 2 ^ (- e)))
  | S754_infinity _ =>
      Raise (OverflowError "cannot convert float infinity to integer")
  | S754_nan => Raise (ValueError "cannot convert float NaN to integer")
  end.

Definition calculate_raster_shape_f64 (minx miny maxx maxy resolution : float)
  : result Shape :=
  let width := (maxx - minx)%float in
  let height := (maxy - miny)%float in
  cols <- int_ceil_f64 (width / resolution)%float ;;
  rows <- int_ceil_f64 (height / resolution)%float ;;
  let shape := (rows, cols) in
  Ok shape.

(** ** Arrays

    A numpy array of shape (rows, cols) is a list of rows. *)

Definition Array : Type := list (list Z).

Definition full (rows cols : nat) (fill : Z) : Array :=
  repeat (repeat fill cols) rows.

Definition pixel (arr : Array) (r c : nat) : option Z :=
  match nth_error arr r with
  | Some row => nth_error row c
  | None => None
  end.

Fixpoint mapi_from {A B : Type} (f : nat -> A -> B) (i : nat) (l : list A)
  : list B :=
  match l with
  | [] => []
  | x :: l' => f i x :: mapi_from f (S i) l'
  end.

Definition mapi {A B : Type} (f : nat -> A -> B) (l : list A) : list B :=
  mapi_from f 0%nat l.

(** The value types the script knows; [dn_to_category] is the local
    function of [rasterize_polygons]. *)

Definition dn_to_category (dn : Z) : Z :=
  if dn =? 253 then 1
  else if dn =? 254 then 2
  else if dn =? 255 then 3
  else 0.

(** The range of the dtype uint8 ([rasterio.dtypes.in_dtype_range]). *)
Definition in_uint8_range (v : Z) : bool :=
  (0 <=? v) && (v <=? 255).

(** What a uint8 cell holds when GDAL burns the value [v] into it: the
    value is saturated to the range of the byte. *)
Definition clamp_uint8 (v : Z) : Z :=
  Z.max 0 (Z.min v 255).

(** ** The pipeline's configuration (the module-level constants) *)

Record Config : Type := mkConfig {
  CROP_BBOX : option BBox;
  DN_THRESHOLD : Z;
  PIXEL_RESOLUTION : Q;
  OUTPUT_VALUE_TYPE : string;
  NODATA_VALUE : Z;
  COMPRESSION : string;
  CRS : string
}.

(** What [write_geotiff] hands to the GeoTIFF driver. *)
Record GeoTIFF : Type := mkGeoTIFF {
  tif_data : Array;
  tif_height : nat;
  tif_width : nat;
  tif_transform : Affine;
  tif_crs : string;
  tif_nodata : Z;
  tif_compress : string
}.

(** The numbered steps of [main], as the banners it prints. *)
Inductive Stage : Type :=
| StFilterNulls      (* [2/7] *)
| StCrop      (* [3/7] *)
| StFilterDN         (* [4/7] *)
| StRasterParams    (* [5/7] *)
| StRasterize      (* [6/7] *)
| StWrite.       (* [7/7] *)

(** How a run of [main] ends: normally, by one of its two
    [sys.exit(1)] checks, or by the [except Exception] handler, which
    prints the exception and exits with status 1 as well. *)
Inductive Outcome : Type :=
| Completed (tif : GeoTIFF)
| ExitNoFeaturesAfterCrop
| ExitNoFeaturesAfterDN
| ExitOnException (e : PyExc).

Section Pipeline.

(** GEOS: does the geometry intersect the box?  ([GeoDataFrame.cx]) *)
Variable intersects : Geometry -> BBox -> bool.

(** rasterio: [is_valid_geom]; shapes that fail it are skipped with a
    warning. *)
Variable is_valid_geom : Geometry -> bool.

(** GDAL: the cells (row, col) a geometry burns under a transform with
    [all_touched=False], that is, those whose centre is inside it. *)
Variable burned : Geometry -> Affine -> nat -> nat -> bool.

(** rasterio releases differ on a call without any valid shape: the
    older ones raise, the later ones warn and return the filled array. *)
Variable raise_without_shapes : bool.

(** *** crop_to_bbox *)

Definition in_bbox (bbox : BBox) (f : Feature) : bool :=
  match geometry f with
  | Some g => intersects g bbox
  | None => false
  end.

Definition crop_to_bbox (gdf : GeoDataFrame) (bbox : option BBox)
  : GeoDataFrame :=
  match bbox with
  | None => gdf
  | Some b => filter (in_bbox b) gdf
  end.

(** *** rasterio.features.rasterize

    Called with [out_shape], [transform], [fill], [dtype=np.uint8],
    [all_touched=False] and the default merge algorithm (replace).  The
    values of the shapes are not checked against the dtype: a value is
    stored as the byte nearest to it.  The script always passes the fill
    value 0. *)

Definition valid_shapes (shapes : list (option Geometry * Z))
  : list (Geometry * Z) :=
  flat_map (fun s =>
              match fst s with
              | Some g => if is_valid_geom g then [(g, snd s)] else []
              | None => []
              end) shapes.

Definition burn (transform : Affine) (out : Array) (s : Geometry * Z)
  : Array :=
  mapi (fun r row =>
          mapi (fun c v => if burned (fst s) transform r c
                           then clamp_uint8 (snd s) else v)
               row) out.

Definition rasterize (shapes : list (option Geometry * Z))
           (out_shape : Shape) (transform : Affine) (fill : Z)
  : result Array :=
  let vs := valid_shapes shapes in
  if raise_without_shapes && (Nat.eqb (length vs) 0) then
    Raise (ValueError "No valid geometry objects found for rasterize")
  else
    let '(rows, cols) := out_shape in
    if (rows <? 0) || (cols <? 0) then
      Raise (ValueError "negative dimensions are not allowed")
    else if (rows =? 0) || (cols =? 0) then
      Raise (ValueError "width and height must be > 0")
    else
      Ok (fold_left (burn transform) vs
                    (full (Z.to_nat rows) (Z.to_nat cols) fill)).

(** *** rasterize_polygons *)

(** The value paired with a feature's geometry, per value type. *)
Definition shapes_of (value_type : string) (gdf : GeoDataFrame)
  : result (list (option Geometry * Z)) :=
  if String.eqb value_type "binary" then
    Ok (map (fun f => (geometry f, 1)) gdf)
  else if String.eqb value_type "original_dn" then
    Ok (map (fun f => (geometry f, DN f)) gdf)
  else if String.eqb value_type "categorical" then
    Ok (map (fun f => (geometry f, dn_to_category (DN f))) gdf)
  else
    Raise (ValueError ("Unknown value_type: " ++ value_type)).

Definition rasterize_polygons (gdf : GeoDataFrame) (transform : Affine)
           (shape : Shape) (value_type : string) : result Array :=
  shapes <- shapes_of value_type gdf ;;
  rasterize shapes shape transform 0.

(** *** write_geotiff

    [rasterio.open] refuses a profile whose NoData value is outside the
    range of the dtype, which is uint8 here.  Failures of the driver that
    depend on the environment (an unknown CRS string, the file system)
    are outside the model. *)

Definition write_geotiff (array : Array) (transform : Affine)
           (crs : string) (nodata_value : Z) (compression : string)
  : result GeoTIFF :=
  if in_uint8_range nodata_value then
    Ok {| tif_data := array;
          tif_height := length array;
          tif_width := length (hd [] array);
          tif_transform := transform;
          tif_crs := crs;
          tif_nodata := nodata_value;
          tif_compress := compression |}
  else
    Raise (ValueError
             ("Given nodata value, "
              ++ NilZero.string_of_int (Z.to_int nodata_value)
              ++ ", is beyond the valid range of its data type, uint8.")).

(** *** main

    The frame is the one [load_vector_data] returned.  The result is the
    list of steps entered, in order, and how the run ended.
    [validate_and_report] only prints statistics of the frame and fills the
    report; the preview image and the report are written after the GeoTIFF.
    None of them changes the frame, the grid or the array, and they are
    left out.  [sys.exit] raises SystemExit, which the handler for
    [Exception] at the end of [main] does not catch. *)

Definition main (cfg : Config) (loaded : GeoDataFrame)
  : list Stage * Outcome :=
  let gdf := filter_null_geometries loaded in
  let gdf := crop_to_bbox gdf (CROP_BBOX cfg) in
  if Nat.eqb (length gdf) 0 then
    ([StFilterNulls; StCrop], ExitNoFeaturesAfterCrop)
  else
    let gdf := filter_by_dn_threshold gdf (DN_THRESHOLD cfg) in
    if Nat.eqb (length gdf) 0 then
      ([StFilterNulls; StCrop; StFilterDN], ExitNoFeaturesAfterDN)
    else
      match calculate_raster_params gdf (PIXEL_RESOLUTION cfg) with
      | Raise e =>
          ([StFilterNulls; StCrop; StFilterDN; StRasterParams],
           ExitOnException e)
      | Ok (_, shape, transform) =>
          match rasterize_polygons gdf transform shape
                                   (OUTPUT_VALUE_TYPE cfg) with
          | Raise e =>
              ([StFilterNulls; StCrop; StFilterDN; StRasterParams;
                StRasterize], ExitOnException e)
          | Ok raster_array =>
              match write_geotiff raster_array transform (CRS cfg)
                                  (NODATA_VALUE cfg) (COMPRESSION cfg) with
              | Raise e =>
                  ([StFilterNulls; StCrop; StFilterDN; StRasterParams;
                    StRasterize; StWrite], ExitOnException e)
              | Ok tif =>
                  ([StFilterNulls; StCrop; StFilterDN; StRasterParams;
                    StRasterize; StWrite], Completed tif)
              end
          end
      end.

End Pipeline.

(** ** Reference readings used in the statements *)

(** The union bounding box of a set of vertices, as the specification words
    it: the box contains every vertex and each side is reached by one. *)
Definition is_union_bbox (pts : list Point) (b : BBox) : Prop :=
  let '(x0, y0, x1, y1) := b in
  (forall p, In p pts ->
             (x0 <= fst p)%Q /\ (fst p <= x1)%Q /\
             (y0 <= snd p)%Q /\ (snd p <= y1)%Q) /\
  (exists p, In p pts /\ (fst p == x0)%Q) /\
  (exists p, In p pts /\ (snd p == y0)%Q) /\
  (exists p, In p pts /\ (fst p == x1)%Q) /\
  (exists p, In p pts /\ (snd p == y1)%Q).

(** [n] is the ceiling of [w / r]: the least number of cells of size [r]
    that span [w]. *)
Definition is_ceil_div (w r : Q) (n : Z) : Prop :=
  ((inject_Z n - 1) * r < w)%Q /\ (w <= inject_Z n * r)%Q.

(** The float [x] is the coordinate [q]. *)
Definition f64_denotes (x : float) (q : Q) : Prop :=
  exists q', f64_value x = Some q' /\ (q' == q)%Q.

(** A feature claims a cell when rasterize accepts its geometry and GDAL
    burns the cell for it. *)
Definition covers (is_valid_geom : Geometry -> bool)
           (burned : Geometry -> Affine -> nat -> nat -> bool)
           (f : Feature) (transform : Affine) (r c : nat) : bool :=
  match geometry f with
  | Some g => is_valid_geom g && burned g transform r c
  | None => false
  end.

(** The value [rasterize_polygons] pairs with a feature. *)
Definition encoded (value_type : string) (f : Feature) : Z :=
  if String.eqb value_type "binary" then 1
  else if String.eqb value_type "original_dn" then DN f
  else dn_to_category (DN f).

(** rasterize keeps the shape of a feature when its geometry is present
    and passes [is_valid_geom]. *)
Definition accepted (is_valid_geom : Geometry -> bool) (f : Feature) : bool :=
  match geometry f with
  | Some g => is_valid_geom g
  | None => false
  end.

(** The byte stored for a feature: its value, saturated. *)
Definition stored (value_type : string) (f : Feature) : Z :=
  clamp_uint8 (encoded value_type f).

(** The painter's rule at one cell: go through the features in order and
    keep the byte of the last one that claims the cell. *)
Definition painted (is_valid_geom : Geometry -> bool)
           (burned : Geometry -> Affine -> nat -> nat -> bool)
           (value_type : string) (transform : Affine) (r c : nat)
           (gdf : GeoDataFrame) (start : Z) : Z :=
  fold_left (fun v f =>
               if covers is_valid_geom burned f transform r c
               then stored value_type f else v) gdf start.

Definition set_nodata (cfg : Config) (v : Z) : Config :=
  {| CROP_BBOX := CROP_BBOX cfg;
     DN_THRESHOLD := DN_THRESHOLD cfg;
     PIXEL_RESOLUTION := PIXEL_RESOLUTION cfg;
     OUTPUT_VALUE_TYPE := OUTPUT_VALUE_TYPE cfg;
     NODATA_VALUE := v;
     COMPRESSION := COMPRESSION cfg;
     CRS := CRS cfg |}.

(** The array and the NoData tag of the file a run wrote, if it wrote one. *)
Definition raster_of (o : Outcome) : option Array :=
  match o with
  | Completed tif => Some (tif_data tif)
  | _ => None
  end.

Definition nodata_of (o : Outcome) : option Z :=
  match o with
  | Completed tif => Some (tif_nodata tif)
  | _ => None
  end.

(** ** A concrete sampling rule

    Centre sampling with the even-odd rule, on finite transforms.  It
    instantiates the variables of the pipeline in the examples. *)

Definition pixel_center (t : Affine) (r c : nat) : option Point :=
  match aff_a t, aff_b t, aff_c t, aff_d t, aff_e t, aff_f t with
  | Fin a, Fin b, Fin c0, Fin d, Fin e, Fin f0 =>
      let u := (inject_Z (Z.of_nat c) + (1 # 2))%Q in
      let v := (inject_Z (Z.of_nat r) + (1 # 2))%Q in
      Some ((a * u + b * v + c0)%Q, (d * u + e * v + f0)%Q)
  | _, _, _, _, _, _ => None
  end.

(** Does the edge from [p1] to [p2] cross the ray going right from [p]? *)
Definition edge_crosses (p p1 p2 : Point) : bool :=
  let '(x, y) := p in
  let '(x1, y1) := p1 in
  let '(x2, y2) := p2 in
  negb (Bool.eqb (negb (Qle_bool y1 y)) (negb (Qle_bool y2 y))) &&
  negb (Qle_bool ((x2 - x1) * (y - y1) / (y2 - y1) + x1) x).

Fixpoint crossings (p : Point) (prev : Point) (ring : Ring) : nat :=
  match ring with
  | [] => 0
  | q :: rest =>
      ((if edge_crosses p prev q then 1 else 0) + crossings p q rest)%nat
  end.

Definition in_ring (p : Point) (ring : Ring) : bool :=
  match ring with
  | [] => false
  | q :: _ => Nat.odd (crossings p (last ring q) ring)
  end.

Definition in_polygon (p : Point) (poly : Polygon) : bool :=
  in_ring p (exterior poly) && forallb (fun h => negb (in_ring p h)) (interiors poly).

Definition in_geometry (p : Point) (g : Geometry) : bool :=
  match g with
  | GPolygon poly => in_polygon p poly
  | GMultiPolygon ps => existsb (in_polygon p) ps
  end.

Definition centre_burned (g : Geometry) (t : Affine) (r c : nat) : bool :=
  match pixel_center t r c with
  | Some p => in_geometry p g
  | None => false
  end.

Definition has_vertices (g : Geometry) : bool :=
  negb (Nat.eqb (length (coords g)) 0).

Definition box_intersects (g : Geometry) (b : BBox) : bool :=
  let '(x0, y0, x1, y1) := b in
  existsb (fun p => Qle_bool x0 (fst p) && Qle_bool (fst p) x1 &&
                    Qle_bool y0 (snd p) && Qle_bool (snd p) y1) (coords g).

(** An axis-aligned square as a polygon feature. *)
Definition square (x0 y0 x1 y1 : Q) (dn : Z) : Feature :=
  {| geometry := Some (GPolygon
       {| exterior := [(x0, y0); (x1, y0); (x1, y1); (x0, y1); (x0, y0)];
          interiors := [] |});
     DN := dn |}.

Definition grid2 : Affine :=
  from_bounds (Fin 0) (Fin 0) (Fin 2) (Fin 2) 2 2.


(** Two overlapping squares on the 2 x 2 grid: [featA] covers the whole
    grid, [featB] its lower-right cell. *)
Definition featA : Feature := square 0 0 2 2 253.
Definition featB : Feature := square 1 0 2 1 255.

(** A feature whose DN does not fit in a byte. *)
Definition featWide : Feature := square 0 0 1 1 300.

(** A feature below the script's threshold. *)
Definition featLow : Feature := square 0 0 2 2 100.

(** The constants of the script, with the resolution and the value type
    left open. *)
Definition script_config (resolution : Q) (value_type : string) : Config :=
  {| CROP_BBOX := None;
     DN_THRESHOLD := 253;
     PIXEL_RESOLUTION := resolution;
     OUTPUT_VALUE_TYPE := value_type;
     NODATA_VALUE := 0;
     COMPRESSION := "lzw";
     CRS := "EPSG:32631" |}.

(** ** Further functions of the script *)

(** *** validate_and_report

    The statistics dictionary it returns; the rest of the function
    prints. *)
Record Stats : Type := mkStats {
  feature_count : nat;
  null_geometries : nat;
  stats_bounds : option (float64 * float64 * float64 * float64)
}.

Definition isna (f : Feature) : bool := negb (notna f).

Definition validate_and_report (gdf : GeoDataFrame) : Stats :=
  let null_count := length (filter isna gdf) in
  {| feature_count := length gdf;
     null_geometries := if (0 <? length gdf)%nat then null_count else 0%nat;
     stats_bounds :=
       if (0 <? length gdf)%nat && existsb notna gdf
       then Some (total_bounds gdf) else None |}.

(** The number of rows [filter_null_geometries] reports as removed. *)
Definition null_removed_count (gdf : GeoDataFrame) : Z :=
  let initial_count := Z.of_nat (length gdf) in
  initial_count - Z.of_nat (length (filter_null_geometries gdf)).

(** [raster_array.size] *)
Definition array_size (arr : Array) : nat := length (concat arr).

(** [np.count_nonzero(raster_array)] *)
Definition count_nonzero (arr : Array) : nat :=
  length (filter (fun v => negb (v =? 0)) (concat arr)).

(** The frame [main] holds when it reaches step 5. *)
Definition survivors (intersects : Geometry -> BBox -> bool)
           (cfg : Config) (loaded : GeoDataFrame) : GeoDataFrame :=
  filter_by_dn_threshold
    (crop_to_bbox intersects (filter_null_geometries loaded) (CROP_BBOX cfg))
    (DN_THRESHOLD cfg).

(** The three filters of [main] read as one test on a row. *)
Definition survives (intersects : Geometry -> BBox -> bool)
           (cfg : Config) (f : Feature) : bool :=
  notna f &&
  match CROP_BBOX cfg with
  | Some b => in_bbox intersects b f
  | None => true
  end &&
  (DN f >=? DN_THRESHOLD cfg).

Definition all_stages : list Stage :=
  [StFilterNulls; StCrop; StFilterDN; StRasterParams; StRasterize; StWrite].

(** A row without geometry, and a row whose polygon has no vertex. *)
Definition featNull : Feature := {| geometry := None; DN := 255 |}.
Definition featEmpty : Feature :=
  {| geometry := Some (GPolygon {| exterior := []; interiors := [] |});
     DN := 255 |}.

(** The file that the script's settings give for [featA] then [featB] at
    resolution 1 under original_dn. *)
Definition tif_AB : GeoTIFF :=
  {| tif_data := [[253; 253]; [253; 255]];
     tif_height := 2;
     tif_width := 2;
     tif_transform := grid2;
     tif_crs := "EPSG:32631";
     tif_nodata := 0;
     tif_compress := "lzw" |}.

(** * Properties *)

(** ** The threshold filter *)

Lemma filter_length_split {A : Type} (p q : A -> bool) (l : list A) :
  (forall x, q x = negb (p x)) ->
  (length (filter p l) + length (filter q l))%nat = length l.
Proof.
  intros Hq. induction l as [|x l IH]; simpl; [reflexivity|].
  rewrite (Hq x). destruct (p x); simpl; lia.
Qed.

(** C6.  The threshold filter keeps a feature exactly when its DN is at
    least the threshold: every feature of the output has [DN >= t]; every
    feature of the input that is not in the output has [DN < t]; the rows
    kept are those of the input with [DN >= t]; and the
    number of rows the function reports as removed, which is the number of
    rows with [DN < t], adds up with the number kept to the input count. *)
Theorem threshold_filter_correct (gdf : GeoDataFrame) (t : Z) :
  let kept := filter_by_dn_threshold gdf t in
  (forall f, In f kept -> t <= DN f) /\
  (forall f, In f gdf -> ~ In f kept -> DN f < t) /\
  (forall f, In f gdf -> (In f kept <-> t <= DN f)) /\
  dn_removed_count gdf t =
    Z.of_nat (length (filter (fun f => DN f <? t) gdf)) /\
  Z.of_nat (length kept) + dn_removed_count gdf t = Z.of_nat (length gdf).
Proof.
  cbv zeta. unfold dn_removed_count, filter_by_dn_threshold.
  assert (Hin : forall f, In f gdf ->
            (In f (filter (fun f => DN f >=? t) gdf) <-> t <= DN f)).
  { intros f Hf. rewrite filter_In. split.
    - intros [_ H]. apply Z.geb_le in H. exact H.
    - intros H. split; [exact Hf|]. apply Z.geb_le. exact H. }
  pose proof (filter_length_split (fun f => DN f >=? t) (fun f => DN f <? t) gdf)
    as Hlen.
  assert (Hneg : forall x : Feature, (DN x <? t) = negb (DN x >=? t)).
  { intros x. rewrite Z.geb_leb. destruct (Z.ltb_spec (DN x) t);
      destruct (Z.leb_spec t (DN x)); simpl; try reflexivity; lia. }
  specialize (Hlen Hneg).
  repeat split.
  - intros f Hf. apply filter_In in Hf. destruct Hf as [_ H].
    apply Z.geb_le in H. exact H.
  - intros f Hf Hnot. destruct (Z.lt_ge_cases (DN f) t) as [H|H]; [exact H|].
    exfalso. apply Hnot. apply Hin; assumption.
  - apply Hin; assumption.
  - apply Hin; assumption.
  - lia.
  - lia.
Qed.

(** ** Bounds *)

Lemma union_bbox_single (x y : Q) : is_union_bbox [(x, y)] (x, y, x, y).
Proof.
  unfold is_union_bbox. split.
  - intros p [Hp|[]]. subst p. simpl. repeat split; apply Qle_refl.
  - repeat split; exists (x, y); (split; [left; reflexivity | simpl; reflexivity]).
Qed.

Lemma union_bbox_app (p1 p2 : list Point) (x0 y0 x1 y1 u0 v0 u1 v1 : Q) :
  is_union_bbox p1 (x0, y0, x1, y1) ->
  is_union_bbox p2 (u0, v0, u1, v1) ->
  is_union_bbox (p1 ++ p2) (Qmin x0 u0, Qmin y0 v0, Qmax x1 u1, Qmax y1 v1).
Proof.
  unfold is_union_bbox.
  intros (Hin1 & (a1 & Ha1 & Ea1) & (b1 & Hb1 & Eb1) & (c1 & Hc1 & Ec1)
          & (d1 & Hd1 & Ed1))
         (Hin2 & (a2 & Ha2 & Ea2) & (b2 & Hb2 & Eb2) & (c2 & Hc2 & Ec2)
          & (d2 & Hd2 & Ed2)).
  split.
  - intros p Hp. apply in_app_or in Hp. destruct Hp as [Hp|Hp].
    + destruct (Hin1 p Hp) as (H1 & H2 & H3 & H4). repeat split.
      * eapply Qle_trans; [apply Q.le_min_l | exact H1].
      * eapply Qle_trans; [exact H2 | apply Q.le_max_l].
      * eapply Qle_trans; [apply Q.le_min_l | exact H3].
      * eapply Qle_trans; [exact H4 | apply Q.le_max_l].
    + destruct (Hin2 p Hp) as (H1 & H2 & H3 & H4). repeat split.
      * eapply Qle_trans; [apply Q.le_min_r | exact H1].
      * eapply Qle_trans; [exact H2 | apply Q.le_max_r].
      * eapply Qle_trans; [apply Q.le_min_r | exact H3].
      * eapply Qle_trans; [exact H4 | apply Q.le_max_r].
  - repeat split.
    + destruct (Q.min_dec x0 u0) as [E|E].
      * exists a1. split; [apply in_or_app; left; exact Ha1|].
        rewrite E. exact Ea1.
      * exists a2. split; [apply in_or_app; right; exact Ha2|].
        rewrite E. exact Ea2.
    + destruct (Q.min_dec y0 v0) as [E|E].
      * exists b1. split; [apply in_or_app; left; exact Hb1|].
        rewrite E. exact Eb1.
      * exists b2. split; [apply in_or_app; right; exact Hb2|].
        rewrite E. exact Eb2.
    + destruct (Q.max_dec x1 u1) as [E|E].
      * exists c1. split; [apply in_or_app; left; exact Hc1|].
        rewrite E. exact Ec1.
      * exists c2. split; [apply in_or_app; right; exact Hc2|].
        rewrite E. exact Ec2.
    + destruct (Q.max_dec y1 v1) as [E|E].
      * exists d1. split; [apply in_or_app; left; exact Hd1|].
        rewrite E. exact Ed1.
      * exists d2. split; [apply in_or_app; right; exact Hd2|].
        rewrite E. exact Ed2.
Qed.

Lemma points_bounds_none (pts : list Point) :
  points_bounds pts = None <-> pts = [].
Proof.
  destruct pts as [|[x y] rest]; simpl.
  - split; reflexivity.
  - destruct (points_bounds rest) as [[[[x0 y0] x1] y1]|];
      split; intros H; discriminate H.
Qed.

Lemma points_bounds_spec (pts : list Point) (b : BBox) :
  points_bounds pts = Some b -> is_union_bbox pts b.
Proof.
  revert b. induction pts as [|[x y] rest IH]; intros b Hb; simpl in Hb.
  - discriminate Hb.
  - destruct (points_bounds rest) as [[[[x0 y0] x1] y1]|] eqn:Er.
    + injection Hb as <-.
      apply (union_bbox_app [(x, y)] rest).
      * apply union_bbox_single.
      * apply IH. reflexivity.
    + injection Hb as <-. apply points_bounds_none in Er. subst rest.
      apply union_bbox_single.
Qed.

Lemma finite_bounds_none (gdf : GeoDataFrame) :
  finite_bounds gdf = None <-> all_coords gdf = [].
Proof.
  induction gdf as [|f gdf IH]; simpl.
  - split; reflexivity.
  - unfold bounds.
    destruct (points_bounds (feature_coords f)) as [[[[x0 y0] x1] y1]|] eqn:Ef.
    + split; intros H.
      * unfold finite_bounds in *.
        destruct (fold_right _ None gdf) as [[[[u0 v0] u1] v1]|];
          simpl in H; discriminate H.
      * apply app_eq_nil in H. destruct H as [H _].
        apply points_bounds_none in H. congruence.
    + apply points_bounds_none in Ef. rewrite Ef. simpl.
      exact IH.
Qed.

Lemma finite_bounds_spec (gdf : GeoDataFrame) (b : BBox) :
  finite_bounds gdf = Some b -> is_union_bbox (all_coords gdf) b.
Proof.
  revert b. induction gdf as [|f gdf IH]; intros b Hb; simpl in Hb.
  - discriminate Hb.
  - unfold bounds in Hb. simpl.
    destruct (points_bounds (feature_coords f)) as [[[[x0 y0] x1] y1]|] eqn:Ef.
    + fold (finite_bounds gdf) in Hb.
      destruct (finite_bounds gdf) as [[[[u0 v0] u1] v1]|] eqn:Eg.
      * simpl in Hb. injection Hb as <-.
        apply union_bbox_app.
        -- apply points_bounds_spec. exact Ef.
        -- apply IH. reflexivity.
      * simpl in Hb. injection Hb as <-.
        apply finite_bounds_none in Eg. rewrite Eg, app_nil_r.
        apply points_bounds_spec. exact Ef.
    + apply points_bounds_none in Ef. rewrite Ef. simpl.
      apply IH. exact Hb.
Qed.

Lemma finite_bounds_some (gdf : GeoDataFrame) :
  all_coords gdf <> [] -> exists b, finite_bounds gdf = Some b.
Proof.
  intros H. destruct (finite_bounds gdf) as [b|] eqn:E.
  - exists b. reflexivity.
  - apply finite_bounds_none in E. contradiction.
Qed.


(** ** Arithmetic of the grid size *)



Lemma fdiv_finite (w r : Q) :
  ~ (r == 0)%Q -> fdiv (Fin w) (Fin r) = Fin (w / r).
Proof.
  intros Hr. simpl. destruct (Qeq_bool r 0) eqn:E; [|reflexivity].
  apply Qeq_bool_iff in E. contradiction.
Qed.

Lemma Qpos_neq0 (r : Q) : (0 < r)%Q -> ~ (r == 0)%Q.
Proof. intros H E. rewrite E in H. exact (Qlt_irrefl 0 H). Qed.


Lemma ceiling_is_ceil_div (w r : Q) :
  (0 < r)%Q -> is_ceil_div w r (Qceiling (w / r)).
Proof.
  intros Hr. unfold is_ceil_div. split.
  - pose proof (Qceiling_lt (w / r)) as H.
    assert (E : (inject_Z (Qceiling (w / r) - 1)
                 == inject_Z (Qceiling (w / r)) - 1)%Q).
    { unfold Z.sub. rewrite inject_Z_plus. reflexivity. }
    rewrite E in H.
    apply (Qmult_lt_r _ _ r Hr) in H.
    assert (E2 : (w / r * r == w)%Q).
    { unfold Qdiv. rewrite <- Qmult_assoc, (Qmult_comm (/ r) r).
      rewrite Qmult_inv_r; [apply Qmult_1_r | apply Qpos_neq0; exact Hr]. }
    rewrite E2 in H. exact H.
  - pose proof (Qle_ceiling (w / r)) as H.
    apply (Qmult_le_r _ _ r Hr) in H.
    assert (E2 : (w / r * r == w)%Q).
    { unfold Qdiv. rewrite <- Qmult_assoc, (Qmult_comm (/ r) r).
      rewrite Qmult_inv_r; [apply Qmult_1_r | apply Qpos_neq0; exact Hr]. }
    rewrite E2 in H. exact H.
Qed.



(** ** The grid specification *)

Lemma int_ceil_f64_spec (x : float) (q : Q) :
  f64_value x = Some q -> int_ceil_f64 x = Ok (Qceiling q).
Proof.
  unfold f64_value, int_ceil_f64.
  destruct (Prim2SF x) as [sg| sg | |sg m e]; try discriminate.
  - intros H. injection H as <-. reflexivity.
  - cbv zeta. set (n := if sg then Z.neg m else Z.pos m).
    destruct (Z.leb_spec 0 e) as [He|He]; intros H; injection H as <-.
    + rewrite Qceiling_Z. reflexivity.
    + f_equal. unfold Qceiling, Qfloor, Qopp. cbn [Qnum Qden].
      rewrite Z2Pos.id by (apply Z.pow_pos_nonneg; lia). reflexivity.
Qed.

Lemma ceiling_is_ceil_unit (q : Q) : is_ceil_div q 1 (Qceiling q).
Proof.
  assert (E : Qceiling q = Qceiling (q / 1)).
  { apply Qceiling_comp. field. }
  rewrite E. apply ceiling_is_ceil_div. reflexivity.
Qed.

(** The claim of C3 fails in float64: for x from 0.1 to 0.4 (the nearest
    floats) and resolution 0.1, the exact quotient of the extent by the
    resolution is 3, but the subtraction rounds up, the quotient comes out
    above 3 and the code gets 4 columns. *)
Lemma float_quotient_rounds_up :
  exists lo hi,
    f64_value 0x1.999999999999ap-4%float = Some lo /\
    f64_value 0x1.999999999999ap-2%float = Some hi /\
    Qceiling ((hi - lo) / lo) = 3 /\
    calculate_raster_shape_f64 0x1.999999999999ap-4 0 0x1.999999999999ap-2 1
                               0x1.999999999999ap-4
    = Ok (10, 4).
Proof.
  eexists. eexists. split; [vm_compute; reflexivity|].
  split; [vm_compute; reflexivity|].
  split; vm_compute; reflexivity.
Qed.

(** C3, amended.  For a collection with at least one vertex the bounds
    are the union bounding box of all its vertices; a collection without
    a vertex has no bounds and [calculate_raster_params] raises on it.
    When the bounds and the resolution are the float64 values minX, minY,
    maxX, maxY and r, and the quotients (maxX - minX) / r and
    (maxY - minY) / r, each operation rounded, are finite, the shape is
    [(rows, cols)] with [cols] and [rows] the ceilings of these two float
    quotients: the least integers that are not below them. *)
Theorem grid_dimensions_are_float_ceilings :
  (forall gdf,
      all_coords gdf <> [] ->
      exists x0 y0 x1 y1,
        total_bounds gdf = (Fin x0, Fin y0, Fin x1, Fin y1) /\
        is_union_bbox (all_coords gdf) (x0, y0, x1, y1)) /\
  (forall gdf r,
      all_coords gdf = [] ->
      calculate_raster_params gdf r =
      Raise (ValueError "cannot convert float NaN to integer")) /\
  (forall gdf x0 y0 x1 y1 (minx miny maxx maxy r : float) qx qy,
      total_bounds gdf = (Fin x0, Fin y0, Fin x1, Fin y1) ->
      f64_denotes minx x0 -> f64_denotes miny y0 ->
      f64_denotes maxx x1 -> f64_denotes maxy y1 ->
      f64_value ((maxx - minx) / r)%float = Some qx ->
      f64_value ((maxy - miny) / r)%float = Some qy ->
      is_union_bbox (all_coords gdf) (x0, y0, x1, y1) /\
      calculate_raster_shape_f64 minx miny maxx maxy r
      = Ok (Qceiling qy, Qceiling qx) /\
      is_ceil_div qx 1 (Qceiling qx) /\ is_ceil_div qy 1 (Qceiling qy)).
Proof.
  assert (Hfin : forall gdf x0 y0 x1 y1,
             total_bounds gdf = (Fin x0, Fin y0, Fin x1, Fin y1) ->
             finite_bounds gdf = Some (x0, y0, x1, y1)).
  { intros gdf x0 y0 x1 y1. unfold total_bounds.
    destruct (finite_bounds gdf) as [[[[a b] c] d]|]; intros H;
      [injection H as -> -> -> ->; reflexivity | discriminate H]. }
  split; [|split].
  - intros gdf Hne.
    destruct (finite_bounds_some gdf Hne) as [[[[x0 y0] x1] y1] Hb].
    exists x0, y0, x1, y1. split.
    + unfold total_bounds. rewrite Hb. reflexivity.
    + apply finite_bounds_spec. exact Hb.
  - intros gdf r Hc. apply finite_bounds_none in Hc.
    unfold calculate_raster_params, total_bounds. rewrite Hc. reflexivity.
  - intros gdf x0 y0 x1 y1 minx miny maxx maxy r qx qy Hb _ _ _ _ Hx Hy.
    split; [apply finite_bounds_spec, Hfin, Hb|].
    split; [|split; apply ceiling_is_ceil_unit].
    unfold calculate_raster_shape_f64.
    rewrite (int_ceil_f64_spec _ _ Hx). cbn [bind].
    rewrite (int_ceil_f64_spec _ _ Hy). reflexivity.
Qed.

Lemma grid_dimensions_are_float_ceilings_witness :
  calculate_raster_shape_f64 0 0 10 7 3 = Ok (3, 4).
Proof.
  destruct grid_dimensions_are_float_ceilings as (_ & _ & H).
  destruct (H [square 0 0 10 7 253] 0%Q 0%Q 10%Q 7%Q
              0%float 0%float 10%float 7%float 3%float
              (7505999378950827 # 2251799813685248)%Q
              (5254199565265579 # 2251799813685248)%Q)
    as (_ & Hshape & _).
  - reflexivity.
  - eexists. split; vm_compute; reflexivity.
  - eexists. split; vm_compute; reflexivity.
  - eexists. split; vm_compute; reflexivity.
  - eexists. split; vm_compute; reflexivity.
  - vm_compute. reflexivity.
  - vm_compute. reflexivity.
  - exact Hshape.
Defined.




(** The transform is anchored at the upper-left corner of the bounds, and
    its row step is the negated height of the box divided by the number of
    rows. *)
Lemma transform_anchor (x0 y0 x1 y1 : Q) (cols rows : Z) :
  let tr := from_bounds (Fin x0) (Fin y0) (Fin x1) (Fin y1) cols rows in
  aff_c tr = Fin x0 /\ aff_f tr = Fin y1 /\
  (cols <> 0 -> aff_a tr = Fin ((x1 - x0) / inject_Z cols)) /\
  (rows <> 0 -> aff_e tr = Fin ((y0 - y1) / inject_Z rows)).
Proof.
  cbv zeta. unfold from_bounds. cbn [aff_a aff_c aff_e aff_f fsub].
  split; [reflexivity|]. split; [reflexivity|]. split; intros Hn.
  - apply fdiv_finite. intros E. apply Hn.
    unfold Qeq in E. simpl in E. lia.
  - apply fdiv_finite. intros E. apply Hn.
    unfold Qeq in E. simpl in E. lia.
Qed.

(** C5 at a 10 x 7 box with resolution 3: the grid is 4 columns by 3 rows
    and is anchored at (minX, maxY) = (0, 7), but a cell is 5/2 wide and
    7/3 high: neither equals the resolution, and the two differ. *)
Theorem pixel_size_differs_from_resolution :
  exists b tr pw ph,
    calculate_raster_params [square 0 0 10 7 253] 3 = Ok (b, (3, 4), tr) /\
    aff_c tr = Fin 0 /\ aff_f tr = Fin 7 /\
    aff_a tr = Fin pw /\ aff_e tr = Fin (- ph) /\
    (pw == 5 # 2)%Q /\ (ph == 7 # 3)%Q /\
    ~ (pw == 3)%Q /\ ~ (ph == 3)%Q /\ ~ (pw == ph)%Q.
Proof.
  eexists. eexists. exists (10 # 4)%Q. exists (7 # 3)%Q.
  split; [vm_compute; reflexivity|].
  cbn [aff_a aff_c aff_e aff_f].
  repeat split; try reflexivity; intros E; discriminate E.
Qed.

(** ** Arrays *)

Lemma nth_error_mapi_from {A B : Type} (f : nat -> A -> B) (l : list A) :
  forall i n,
    nth_error (mapi_from f i l) n = option_map (f (i + n)%nat) (nth_error l n).
Proof.
  induction l as [|x l IH]; intros i n.
  - destruct n; reflexivity.
  - destruct n as [|n]; simpl.
    + rewrite Nat.add_0_r. reflexivity.
    + rewrite IH. rewrite Nat.add_succ_r. reflexivity.
Qed.

Lemma nth_error_mapi {A B : Type} (f : nat -> A -> B) (l : list A) (n : nat) :
  nth_error (mapi f l) n = option_map (f n) (nth_error l n).
Proof. unfold mapi. rewrite nth_error_mapi_from. reflexivity. Qed.

Lemma pixel_full (rows cols : nat) (fill : Z) (r c : nat) :
  (r < rows)%nat -> (c < cols)%nat ->
  pixel (full rows cols fill) r c = Some fill.
Proof.
  intros Hr Hc. unfold pixel, full.
  rewrite nth_error_repeat by exact Hr.
  apply nth_error_repeat. exact Hc.
Qed.

Section Burning.

Variable is_valid_geom : Geometry -> bool.
Variable burned : Geometry -> Affine -> nat -> nat -> bool.
Variable raise_without_shapes : bool.

Lemma pixel_burn (t : Affine) (out : Array) (s : Geometry * Z) (r c : nat) :
  pixel (burn burned t out s) r c =
  option_map (fun v => if burned (fst s) t r c then clamp_uint8 (snd s) else v)
             (pixel out r c).
Proof.
  unfold pixel, burn. rewrite nth_error_mapi.
  destruct (nth_error out r) as [row|]; simpl; [|reflexivity].
  apply nth_error_mapi.
Qed.

Lemma pixel_fold_burn (t : Affine) (vs : list (Geometry * Z)) (r c : nat) :
  forall out,
    pixel (fold_left (burn burned t) vs out) r c =
    option_map
      (fold_left (fun v s => if burned (fst s) t r c
                             then clamp_uint8 (snd s) else v) vs)
      (pixel out r c).
Proof.
  induction vs as [|s vs IH]; intros out; simpl.
  - destruct (pixel out r c); reflexivity.
  - rewrite IH, pixel_burn. destruct (pixel out r c); reflexivity.
Qed.

(** Folding over the shapes rasterize kept is folding over the features
    with [covers]. *)
Lemma fold_valid_shapes (val : Feature -> Z) (t : Affine) (r c : nat)
      (gdf : GeoDataFrame) :
  forall v0,
    fold_left (fun v s => if burned (fst s) t r c
                          then clamp_uint8 (snd s) else v)
              (valid_shapes is_valid_geom (map (fun f => (geometry f, val f)) gdf)) v0 =
    fold_left (fun v f => if covers is_valid_geom burned f t r c
                          then clamp_uint8 (val f) else v) gdf v0.
Proof.
  induction gdf as [|f gdf IH]; intros v0; [reflexivity|].
  unfold valid_shapes in *. simpl.
  rewrite fold_left_app, IH. f_equal.
  unfold covers.
  destruct (geometry f) as [g|]; [|reflexivity].
  destruct (is_valid_geom g); reflexivity.
Qed.

Lemma shapes_of_encoded (vt : string) (gdf : GeoDataFrame)
      (l : list (option Geometry * Z)) :
  shapes_of vt gdf = Ok l ->
  l = map (fun f => (geometry f, encoded vt f)) gdf.
Proof.
  unfold shapes_of, encoded.
  destruct (String.eqb vt "binary");
    [intros H; injection H as <-; reflexivity|].
  destruct (String.eqb vt "original_dn");
    [intros H; injection H as <-; reflexivity|].
  destruct (String.eqb vt "categorical");
    [intros H; injection H as <-; reflexivity|].
  intros H. discriminate H.
Qed.

(** When [rasterize] returns, the shape was positive and the array is the
    filled one with the shapes burned in order. *)
Lemma rasterize_ok (shapes : list (option Geometry * Z)) (rows cols : Z)
      (t : Affine) (fill : Z) (arr : Array) :
  rasterize is_valid_geom burned raise_without_shapes shapes (rows, cols) t fill
    = Ok arr ->
  0 < rows /\ 0 < cols /\
  arr = fold_left (burn burned t) (valid_shapes is_valid_geom shapes)
                  (full (Z.to_nat rows) (Z.to_nat cols) fill).
Proof.
  unfold rasterize.
  destruct (raise_without_shapes && _)%bool; [discriminate|].
  destruct (Z.ltb_spec rows 0) as [?|Hr0]; simpl; [discriminate|].
  destruct (Z.ltb_spec cols 0) as [?|Hc0]; simpl; [discriminate|].
  destruct (Z.eqb_spec rows 0) as [?|Hr1]; simpl; [discriminate|].
  destruct (Z.eqb_spec cols 0) as [?|Hc1]; simpl; [discriminate|].
  intros Harr. injection Harr as <-. repeat split; try lia.
Qed.

(** Every cell of the array [rasterize_polygons] returns holds what the
    painter's rule gives, starting from 0. *)
Lemma rasterize_polygons_pixel (gdf : GeoDataFrame) (t : Affine)
      (rows cols : Z) (vt : string) (arr : Array) (r c : nat) :
  rasterize_polygons is_valid_geom burned raise_without_shapes
                     gdf t (rows, cols) vt = Ok arr ->
  Z.of_nat r < rows -> Z.of_nat c < cols ->
  pixel arr r c = Some (painted is_valid_geom burned vt t r c gdf 0).
Proof.
  unfold rasterize_polygons. intros H Hr Hc.
  destruct (shapes_of vt gdf) as [l|e] eqn:Hs; simpl in H; [|discriminate].
  apply shapes_of_encoded in Hs. subst l.
  apply rasterize_ok in H. destruct H as (_ & _ & ->).
  rewrite pixel_fold_burn, pixel_full by lia. simpl.
  rewrite fold_valid_shapes. reflexivity.
Qed.

End Burning.

(** ** The painter's rule *)

Lemma clamp_uint8_range (v : Z) : 0 <= clamp_uint8 v <= 255.
Proof. unfold clamp_uint8. lia. Qed.

Lemma clamp_uint8_id (v : Z) : 0 <= v <= 255 -> clamp_uint8 v = v.
Proof. unfold clamp_uint8. lia. Qed.

Lemma clamp_uint8_above (v : Z) : 255 < v -> clamp_uint8 v = 255.
Proof. unfold clamp_uint8. lia. Qed.

Section Painter.

Variable is_valid_geom : Geometry -> bool.
Variable burned : Geometry -> Affine -> nat -> nat -> bool.
Variable raise_without_shapes : bool.

Lemma painted_app (vt : string) (t : Affine) (r c : nat)
      (l1 l2 : GeoDataFrame) (v : Z) :
  painted is_valid_geom burned vt t r c (l1 ++ l2) v =
  painted is_valid_geom burned vt t r c l2
          (painted is_valid_geom burned vt t r c l1 v).
Proof. unfold painted. apply fold_left_app. Qed.

Lemma painted_uncovered (vt : string) (t : Affine) (r c : nat)
      (gdf : GeoDataFrame) :
  (forall f, In f gdf -> covers is_valid_geom burned f t r c = false) ->
  forall v, painted is_valid_geom burned vt t r c gdf v = v.
Proof.
  induction gdf as [|f gdf IH]; intros Hno v; [reflexivity|].
  unfold painted in *. simpl.
  rewrite (Hno f) by (left; reflexivity).
  apply IH. intros f' Hf'. apply Hno. right. exact Hf'.
Qed.

Lemma painted_last (vt : string) (t : Affine) (r c : nat)
      (pre post : GeoDataFrame) (B : Feature) (v : Z) :
  covers is_valid_geom burned B t r c = true ->
  (forall f, In f post -> covers is_valid_geom burned f t r c = false) ->
  painted is_valid_geom burned vt t r c (pre ++ B :: post) v = stored vt B.
Proof.
  intros HB Hpost. rewrite painted_app.
  change (B :: post) with ([B] ++ post). rewrite painted_app.
  rewrite (painted_uncovered vt t r c post Hpost).
  unfold painted. simpl. rewrite HB. reflexivity.
Qed.

Lemma covers_accepted (f : Feature) (t : Affine) (r c : nat) :
  covers is_valid_geom burned f t r c = true ->
  accepted is_valid_geom f = true.
Proof.
  unfold covers, accepted. destruct (geometry f) as [g|]; [|discriminate].
  intros H. apply andb_true_iff in H. exact (proj1 H).
Qed.

Lemma in_valid_shapes (val : Feature -> Z) (gdf : GeoDataFrame)
      (s : Geometry * Z) :
  In s (valid_shapes is_valid_geom (map (fun f => (geometry f, val f)) gdf))
  <-> exists f, In f gdf /\ geometry f = Some (fst s) /\
                accepted is_valid_geom f = true /\ snd s = val f.
Proof.
  unfold valid_shapes. rewrite in_flat_map. split.
  - intros (x & Hx & Hs). apply in_map_iff in Hx.
    destruct Hx as (f & <- & Hf). simpl in Hs.
    exists f. unfold accepted.
    destruct (geometry f) as [g|]; [|destruct Hs].
    destruct (is_valid_geom g) eqn:Hv; [|destruct Hs].
    destruct Hs as [<-|[]]. simpl. auto.
  - intros (f & Hf & Hg & Ha & Hv). exists (geometry f, val f).
    split; [apply in_map_iff; exists f; auto|]. simpl.
    unfold accepted in Ha. rewrite Hg in *. rewrite Ha.
    left. destruct s as [g v]. simpl in *. subst v. reflexivity.
Qed.

Lemma shapes_of_known (vt : string) (gdf : GeoDataFrame) :
  vt = "binary"%string \/ vt = "original_dn"%string \/
  vt = "categorical"%string ->
  shapes_of vt gdf = Ok (map (fun f => (geometry f, encoded vt f)) gdf).
Proof. intros [ -> | [ -> | -> ] ]; reflexivity. Qed.

(** When does the call return?  For a known value type, a positive shape
    and at least one accepted feature, whatever the values. *)
Lemma rasterize_polygons_returns (gdf : GeoDataFrame) (t : Affine)
      (rows cols : Z) (vt : string) :
  vt = "binary"%string \/ vt = "original_dn"%string \/
  vt = "categorical"%string ->
  (exists f, In f gdf /\ accepted is_valid_geom f = true) ->
  0 < rows -> 0 < cols ->
  exists arr,
    rasterize_polygons is_valid_geom burned raise_without_shapes
                       gdf t (rows, cols) vt = Ok arr.
Proof.
  intros Hvt (f0 & Hf0 & Ha0) Hr Hc.
  unfold rasterize_polygons. rewrite (shapes_of_known vt gdf Hvt). simpl.
  unfold rasterize.
  set (vs := valid_shapes is_valid_geom _).
  assert (Hne : Nat.eqb (length vs) 0 = false).
  { unfold accepted in Ha0. destruct (geometry f0) as [g|] eqn:Hg;
      [|discriminate].
    assert (Hin : In (g, encoded vt f0) vs).
    { apply in_valid_shapes. exists f0. unfold accepted. rewrite Hg. auto. }
    destruct vs; [destruct Hin | reflexivity]. }
  rewrite Hne, andb_false_r.
  destruct (Z.ltb_spec rows 0) as [?|_]; [lia|].
  destruct (Z.ltb_spec cols 0) as [?|_]; [lia|]. simpl.
  destruct (Z.eqb_spec rows 0) as [?|_]; [lia|].
  destruct (Z.eqb_spec cols 0) as [?|_]; [lia|]. simpl.
  eexists. reflexivity.
Qed.

End Painter.

(** ** Rasterization *)

Lemma dn_to_category_range (dn : Z) : 0 <= dn_to_category dn <= 3.
Proof.
  unfold dn_to_category.
  destruct (dn =? 253); [lia|]. destruct (dn =? 254); [lia|].
  destruct (dn =? 255); lia.
Qed.


Section Rasterization.

Variable is_valid_geom : Geometry -> bool.
Variable burned : Geometry -> Affine -> nat -> nat -> bool.
Variable raise_without_shapes : bool.

(** The cell that the last claiming feature leaves. *)
Lemma last_claim_stored (gdf pre post : GeoDataFrame) (f : Feature)
      (t : Affine) (rows cols : Z) (vt : string) (arr : Array) (r c : nat) :
  rasterize_polygons is_valid_geom burned raise_without_shapes
                     gdf t (rows, cols) vt = Ok arr ->
  gdf = pre ++ f :: post ->
  Z.of_nat r < rows -> Z.of_nat c < cols ->
  covers is_valid_geom burned f t r c = true ->
  (forall f', In f' post -> covers is_valid_geom burned f' t r c = false) ->
  pixel arr r c = Some (stored vt f).
Proof.
  intros Hrun -> Hr Hc Hcov Hpost.
  rewrite (rasterize_polygons_pixel _ _ _ _ _ _ _ _ _ _ _ Hrun Hr Hc).
  f_equal. apply painted_last; assumption.
Qed.

(** C1, amended.  Let A and B be two features whose footprints both
    contain the cell (r, c) of the grid.  In every collection where A
    comes before B and no feature after B claims the cell, and for each of
    the three value types, [rasterize_polygons] returns and the cell holds
    the value of B as a byte: the encoded value of B when that lies in
    [0, 255], which is always so under binary and categorical, and 255
    when it is larger.  In particular, for the collection A (DN = 253)
    then B (DN = 255) the cell holds 1 under binary, 255 under original_dn
    and 3 under categorical. *)
Theorem later_feature_wins_as_byte (A B : Feature) (t : Affine)
        (rows cols : Z) (r c : nat) :
  Z.of_nat r < rows -> Z.of_nat c < cols ->
  covers is_valid_geom burned A t r c = true ->
  covers is_valid_geom burned B t r c = true ->
  (forall pre mid post vt,
      vt = "binary"%string \/ vt = "original_dn"%string \/
      vt = "categorical"%string ->
      (forall f, In f post ->
                 covers is_valid_geom burned f t r c = false) ->
      exists arr,
        rasterize_polygons is_valid_geom burned raise_without_shapes
          (pre ++ A :: mid ++ B :: post) t (rows, cols) vt = Ok arr /\
        (0 <= encoded vt B <= 255 -> pixel arr r c = Some (encoded vt B)) /\
        (255 < encoded vt B -> pixel arr r c = Some 255)) /\
  (encoded "binary" B = 1 /\ 0 <= encoded "categorical" B <= 3) /\
  (DN A = 253 -> DN B = 255 ->
   exists a1 a2 a3,
     rasterize_polygons is_valid_geom burned raise_without_shapes
       [A; B] t (rows, cols) "binary" = Ok a1 /\
     pixel a1 r c = Some 1 /\
     rasterize_polygons is_valid_geom burned raise_without_shapes
       [A; B] t (rows, cols) "original_dn" = Ok a2 /\
     pixel a2 r c = Some 255 /\
     rasterize_polygons is_valid_geom burned raise_without_shapes
       [A; B] t (rows, cols) "categorical" = Ok a3 /\
     pixel a3 r c = Some 3).
Proof.
  intros Hr Hc HA HB.
  assert (Hrows : 0 < rows) by lia.
  assert (Hcols : 0 < cols) by lia.
  assert (Hgen : forall pre mid post vt,
      vt = "binary"%string \/ vt = "original_dn"%string \/
      vt = "categorical"%string ->
      (forall f, In f post ->
                 covers is_valid_geom burned f t r c = false) ->
      exists arr,
        rasterize_polygons is_valid_geom burned raise_without_shapes
          (pre ++ A :: mid ++ B :: post) t (rows, cols) vt = Ok arr /\
        pixel arr r c = Some (stored vt B)).
  { intros pre mid post vt Hvt Hpost.
    destruct (rasterize_polygons_returns is_valid_geom burned
                raise_without_shapes (pre ++ A :: mid ++ B :: post) t
                rows cols vt Hvt) as [arr Harr]; try assumption.
    { exists A. split; [apply in_or_app; right; left; reflexivity|].
      eapply covers_accepted. exact HA. }
    exists arr. split; [exact Harr|].
    apply (last_claim_stored _ (pre ++ A :: mid) post B _ _ _ _ _ _ _ Harr);
      try assumption.
    rewrite <- app_assoc. reflexivity. }
  split; [|split].
  - intros pre mid post vt Hvt Hpost.
    destruct (Hgen pre mid post vt Hvt Hpost) as (arr & Harr & Hpix).
    exists arr. split; [exact Harr|]. rewrite Hpix. unfold stored. split.
    + intros Hin. rewrite clamp_uint8_id by exact Hin. reflexivity.
    + intros Hbig. rewrite clamp_uint8_above by exact Hbig. reflexivity.
  - split; [reflexivity|]. unfold encoded. simpl.
    apply dn_to_category_range.
  - intros HdA HdB.
    assert (Hnone : forall f, In f (@nil Feature) ->
                      covers is_valid_geom burned f t r c = false)
      by (intros f []).
    destruct (Hgen [] [] [] "binary"%string (or_introl eq_refl) Hnone)
      as (a1 & H1 & P1).
    destruct (Hgen [] [] [] "original_dn"%string
                (or_intror (or_introl eq_refl)) Hnone) as (a2 & H2 & P2).
    destruct (Hgen [] [] [] "categorical"%string
                (or_intror (or_intror eq_refl)) Hnone) as (a3 & H3 & P3).
    exists a1, a2, a3.
    unfold stored, encoded in P1, P2, P3. simpl in P1, P2, P3.
    rewrite HdB in P2, P3. simpl in P3.
    repeat split; assumption.
Qed.

(** C2, amended.  Under original_dn the value paired with a feature is
    its DN, unchanged, and no range check is made on it: on a positive
    shape, with a feature that rasterize accepts, the call returns
    whatever the DNs are.  A cell holds the DN of the last feature that
    claims it when that DN lies in [0, 255], and 255 when the DN is
    larger. *)
Theorem original_dn_verbatim_then_saturated (gdf : GeoDataFrame) (t : Affine)
        (rows cols : Z) :
  (forall f, encoded "original_dn" f = DN f) /\
  shapes_of "original_dn" gdf = Ok (map (fun f => (geometry f, DN f)) gdf) /\
  ((exists f, In f gdf /\ accepted is_valid_geom f = true) ->
   0 < rows -> 0 < cols ->
   exists arr,
     rasterize_polygons is_valid_geom burned raise_without_shapes
       gdf t (rows, cols) "original_dn" = Ok arr /\
     forall pre f post r c,
       gdf = pre ++ f :: post ->
       Z.of_nat r < rows -> Z.of_nat c < cols ->
       covers is_valid_geom burned f t r c = true ->
       (forall f', In f' post ->
                   covers is_valid_geom burned f' t r c = false) ->
       (0 <= DN f <= 255 -> pixel arr r c = Some (DN f)) /\
       (255 < DN f -> pixel arr r c = Some 255)).
Proof.
  split; [reflexivity|]. split; [reflexivity|].
  intros Hacc Hr Hc.
  destruct (rasterize_polygons_returns is_valid_geom burned
              raise_without_shapes gdf t rows cols "original_dn")
    as [arr Harr]; auto.
  exists arr. split; [exact Harr|].
  intros pre f post r c Hgdf Hr' Hc' Hcov Hpost.
  rewrite (last_claim_stored _ _ _ _ _ _ _ _ _ _ _ Harr Hgdf Hr' Hc' Hcov Hpost).
  unfold stored, encoded. simpl. split.
  - intros Hin. rewrite clamp_uint8_id by exact Hin. reflexivity.
  - intros Hbig. rewrite clamp_uint8_above by exact Hbig. reflexivity.
Qed.

(** C9.  The categorical mapping is the fixed total function
    253 -> 1, 254 -> 2, 255 -> 3, anything else -> 0.  It is the value
    [rasterize_polygons] pairs with each feature under categorical, it
    takes no argument but the DN, and since its values fit in a byte the
    call never fails on a value: on a positive shape with an accepted
    feature it returns, and a cell holds the category of the last feature
    that claims it. *)
Theorem categorical_mapping_fixed :
  dn_to_category 253 = 1 /\ dn_to_category 254 = 2 /\
  dn_to_category 255 = 3 /\
  (forall dn, dn <> 253 -> dn <> 254 -> dn <> 255 -> dn_to_category dn = 0) /\
  (forall gdf,
      shapes_of "categorical" gdf =
      Ok (map (fun f => (geometry f, dn_to_category (DN f))) gdf)) /\
  (forall gdf t rows cols,
      (exists f, In f gdf /\ accepted is_valid_geom f = true) ->
      0 < rows -> 0 < cols ->
      exists arr,
        rasterize_polygons is_valid_geom burned raise_without_shapes
          gdf t (rows, cols) "categorical" = Ok arr /\
        forall pre f post r c,
          gdf = pre ++ f :: post ->
          Z.of_nat r < rows -> Z.of_nat c < cols ->
          covers is_valid_geom burned f t r c = true ->
          (forall f', In f' post ->
                      covers is_valid_geom burned f' t r c = false) ->
          pixel arr r c = Some (dn_to_category (DN f))).
Proof.
  split; [reflexivity|]. split; [reflexivity|]. split; [reflexivity|].
  split; [|split].
  - intros dn H3 H4 H5. unfold dn_to_category.
    destruct (Z.eqb_spec dn 253); [contradiction|].
    destruct (Z.eqb_spec dn 254); [contradiction|].
    destruct (Z.eqb_spec dn 255); [contradiction|]. reflexivity.
  - reflexivity.
  - intros gdf t rows cols Hacc Hr Hc.
    destruct (rasterize_polygons_returns is_valid_geom burned
                raise_without_shapes gdf t rows cols "categorical")
      as [arr Harr]; auto.
    exists arr. split; [exact Harr|].
    intros pre f post r c Hgdf Hr' Hc' Hcov Hpost.
    rewrite (last_claim_stored _ _ _ _ _ _ _ _ _ _ _ Harr Hgdf Hr' Hc' Hcov
               Hpost).
    unfold stored, encoded. simpl. rewrite clamp_uint8_id; [reflexivity|].
    pose proof (dn_to_category_range (DN f)). lia.
Qed.

End Rasterization.

(** ** The pipeline *)

Lemma filter_nonempty_source {A : Type} (p : A -> bool) (l : list A) :
  filter p l <> [] -> l <> [].
Proof. intros H E. apply H. rewrite E. reflexivity. Qed.

Lemma length_eqb_false {A : Type} (l : list A) :
  l <> [] -> Nat.eqb (length l) 0 = false.
Proof. destruct l; [contradiction | reflexivity]. Qed.

Lemma length_eqb_true {A : Type} (l : list A) :
  l = [] -> Nat.eqb (length l) 0 = true.
Proof. intros ->. reflexivity. Qed.




Section Main.

Variable intersects : Geometry -> BBox -> bool.
Variable is_valid_geom : Geometry -> bool.
Variable burned : Geometry -> Affine -> nat -> nat -> bool.
Variable raise_without_shapes : bool.


(** C8.  When the collection that reaches the threshold step is not empty
    and every DN in it is below the threshold, the filter leaves no
    feature and the run ends at the check that follows it, with exit
    status 1 and the post-threshold message: the steps entered are the
    three filters, and neither the grid computation nor the rasterization
    is among them. *)
Theorem all_below_threshold_exits (cfg : Config) (loaded : GeoDataFrame) :
  let reaching :=
    crop_to_bbox intersects (filter_null_geometries loaded) (CROP_BBOX cfg) in
  let run := main intersects is_valid_geom burned raise_without_shapes
                  cfg loaded in
  reaching <> [] ->
  (forall f, In f reaching -> DN f < DN_THRESHOLD cfg) ->
  filter_by_dn_threshold reaching (DN_THRESHOLD cfg) = [] /\
  run = ([StFilterNulls; StCrop; StFilterDN], ExitNoFeaturesAfterDN) /\
  ~ In StRasterParams (fst run) /\ ~ In StRasterize (fst run).
Proof.
  cbv zeta. intros Hne Hlow.
  assert (Hempty : filter_by_dn_threshold
                     (crop_to_bbox intersects (filter_null_geometries loaded)
                                   (CROP_BBOX cfg)) (DN_THRESHOLD cfg) = []).
  { unfold filter_by_dn_threshold.
    destruct (filter _ _) as [|f l] eqn:E; [reflexivity|]. exfalso.
    assert (Hin : In f (f :: l)) by (left; reflexivity).
    rewrite <- E in Hin. apply filter_In in Hin. destruct Hin as [Hin Hge].
    apply Z.geb_le in Hge. specialize (Hlow f Hin). lia. }
  assert (Hrun : main intersects is_valid_geom burned raise_without_shapes
                      cfg loaded =
                 ([StFilterNulls; StCrop; StFilterDN], ExitNoFeaturesAfterDN)).
  { unfold main. rewrite (length_eqb_false _ Hne). rewrite Hempty.
    reflexivity. }
  split; [exact Hempty|]. split; [exact Hrun|]. rewrite Hrun. simpl.
  split; intros [H|[H|[H|[]]]]; discriminate H.
Qed.


(** C10.  [rasterize_polygons] always asks for the fill value 0: the array
    starts as zeros, and a cell that no feature claims is 0 in the array
    returned, for every collection, grid and value type.  The NoData value
    of the configuration plays no part in it: it is only handed to
    [write_geotiff], in step 7.  Changing it changes neither the steps a
    run enters nor how a run ends before step 7; and when two runs that
    differ in it both complete, they wrote the same array, each under its
    own NoData tag. *)
Theorem fill_value_is_zero :
  (forall gdf t shape vt,
      rasterize_polygons is_valid_geom burned raise_without_shapes
                         gdf t shape vt =
      bind (shapes_of vt gdf)
           (fun shapes => rasterize is_valid_geom burned raise_without_shapes
                                    shapes shape t 0)) /\
  (forall gdf t rows cols vt arr r c,
      rasterize_polygons is_valid_geom burned raise_without_shapes
                         gdf t (rows, cols) vt = Ok arr ->
      Z.of_nat r < rows -> Z.of_nat c < cols ->
      (forall f, In f gdf -> covers is_valid_geom burned f t r c = false) ->
      pixel arr r c = Some 0) /\
  (forall cfg v loaded,
      let run := main intersects is_valid_geom burned raise_without_shapes
                      cfg loaded in
      let run' := main intersects is_valid_geom burned raise_without_shapes
                       (set_nodata cfg v) loaded in
      fst run' = fst run /\
      (~ In StWrite (fst run) -> snd run' = snd run) /\
      (forall tif tif',
          snd run = Completed tif -> snd run' = Completed tif' ->
          tif_data tif' = tif_data tif /\
          tif_nodata tif = NODATA_VALUE cfg /\ tif_nodata tif' = v)).
Proof.
  split; [reflexivity|]. split.
  - intros gdf t rows cols vt arr r c Hrun Hr Hc Hno.
    rewrite (rasterize_polygons_pixel _ _ _ _ _ _ _ _ _ _ _ Hrun Hr Hc).
    f_equal. apply painted_uncovered. exact Hno.
  - intros cfg v loaded. cbv zeta. unfold main, set_nodata.
    cbn [CROP_BBOX DN_THRESHOLD PIXEL_RESOLUTION OUTPUT_VALUE_TYPE
         NODATA_VALUE COMPRESSION CRS].
    destruct (Nat.eqb (length (crop_to_bbox _ _ _)) 0);
      [simpl; split; [reflexivity|]; split; [reflexivity|];
       intros tif tif' H; discriminate H|].
    destruct (Nat.eqb (length (filter_by_dn_threshold _ _)) 0);
      [simpl; split; [reflexivity|]; split; [reflexivity|];
       intros tif tif' H; discriminate H|].
    destruct (calculate_raster_params _ _) as [[[b shape] tr]|e];
      [|simpl; split; [reflexivity|]; split; [reflexivity|];
        intros tif tif' H; discriminate H].
    destruct (rasterize_polygons _ _ _ _ _ _ _) as [arr|e];
      [|simpl; split; [reflexivity|]; split; [reflexivity|];
        intros tif tif' H; discriminate H].
    unfold write_geotiff.
    destruct (in_uint8_range (NODATA_VALUE cfg));
      destruct (in_uint8_range v); simpl;
      (split; [reflexivity|]);
      (split; [intros H; exfalso; apply H; auto 10|]);
      intros tif tif' H H'; try discriminate H; try discriminate H'.
    injection H as <-. injection H' as <-. simpl. auto.
Qed.

End Main.

(** ** The statements at concrete inputs *)

Lemma later_feature_wins_as_byte_witness :
  exists a1 a2 a3,
    rasterize_polygons has_vertices centre_burned false
      [featA; featB] grid2 (2, 2) "binary" = Ok a1 /\
    pixel a1 1 1 = Some 1 /\
    rasterize_polygons has_vertices centre_burned false
      [featA; featB] grid2 (2, 2) "original_dn" = Ok a2 /\
    pixel a2 1 1 = Some 255 /\
    rasterize_polygons has_vertices centre_burned false
      [featA; featB] grid2 (2, 2) "categorical" = Ok a3 /\
    pixel a3 1 1 = Some 3.
Proof.
  destruct (later_feature_wins_as_byte has_vertices centre_burned false
              featA featB grid2 2 2 1 1) as (_ & _ & H).
  - reflexivity.
  - reflexivity.
  - vm_compute. reflexivity.
  - vm_compute. reflexivity.
  - apply H; reflexivity.
Defined.

(** The claim of C1 fails under original_dn when the later feature has a
    DN above 255: [featA] (DN 253) and then [featWide] (DN 300) both claim
    the lower-left cell, the encoded value of the later one is 300, and
    the cell holds 255. *)
Lemma later_feature_value_is_saturated :
  covers has_vertices centre_burned featA grid2 1 0 = true /\
  covers has_vertices centre_burned featWide grid2 1 0 = true /\
  encoded "original_dn" featWide = 300 /\
  rasterize_polygons has_vertices centre_burned false
    [featA; featWide] grid2 (2, 2) "original_dn"
  = Ok [[253; 253]; [255; 253]] /\
  pixel [[253; 253]; [255; 253]] 1 0
  <> Some (encoded "original_dn" featWide).
Proof.
  repeat split; try (vm_compute; reflexivity).
  vm_compute. intros H. discriminate H.
Qed.

(** The claim of C2 fails at DN = 300: the call returns, and the cell of
    the feature holds 255. *)
Lemma out_of_range_dn_is_not_rejected :
  DN featWide = 300 /\
  accepted has_vertices featWide = true /\
  rasterize_polygons has_vertices centre_burned false
    [featA; featWide] grid2 (2, 2) "original_dn"
  = Ok [[253; 253]; [255; 253]].
Proof. repeat split; vm_compute; reflexivity. Qed.

Lemma original_dn_verbatim_then_saturated_witness :
  exists arr,
    rasterize_polygons has_vertices centre_burned false
      [featA; featWide] grid2 (2, 2) "original_dn" = Ok arr /\
    pixel arr 0 0 = Some 253 /\ pixel arr 1 0 = Some 255.
Proof.
  destruct (original_dn_verbatim_then_saturated has_vertices centre_burned
              false [featA; featWide] grid2 2 2) as (_ & _ & H).
  destruct H as (arr & Harr & Hpix).
  - exists featA. split; [left; reflexivity | reflexivity].
  - reflexivity.
  - reflexivity.
  - exists arr. split; [exact Harr|].
    assert (HA : covers has_vertices centre_burned featA grid2 0 0 = true)
      by (vm_compute; reflexivity).
    assert (HW : covers has_vertices centre_burned featWide grid2 1 0 = true)
      by (vm_compute; reflexivity).
    assert (HnW : forall f', In f' [featWide] ->
                    covers has_vertices centre_burned f' grid2 0 0 = false)
      by (intros f' [<-|[]]; vm_compute; reflexivity).
    assert (Hnil : forall f', In f' (@nil Feature) ->
                     covers has_vertices centre_burned f' grid2 1 0 = false)
      by (intros f' []).
    destruct (Hpix [] featA [featWide] 0%nat 0%nat eq_refl eq_refl eq_refl
                HA HnW) as [Hin _].
    destruct (Hpix [featA] featWide [] 1%nat 0%nat eq_refl eq_refl eq_refl
                HW Hnil) as [_ Hbig].
    split; [apply Hin; vm_compute; split; discriminate
           | apply Hbig; reflexivity].
Defined.

Lemma categorical_mapping_fixed_witness :
  exists arr,
    rasterize_polygons has_vertices centre_burned false
      [featA; featB] grid2 (2, 2) "categorical" = Ok arr /\
    pixel arr 0 0 = Some 1.
Proof.
  destruct (categorical_mapping_fixed has_vertices centre_burned false)
    as (_ & _ & _ & _ & _ & H).
  destruct (H [featA; featB] grid2 2 2) as (arr & Harr & Hpix).
  - exists featA. split; [left; reflexivity | reflexivity].
  - reflexivity.
  - reflexivity.
  - exists arr. split; [exact Harr|].
    apply (Hpix [] featA [featB] 0%nat 0%nat).
    + reflexivity.
    + reflexivity.
    + reflexivity.
    + vm_compute. reflexivity.
    + intros f [<-|[]]. vm_compute. reflexivity.
Defined.

Lemma all_below_threshold_exits_witness :
  filter_by_dn_threshold [featLow] 253 = [] /\
  main box_intersects has_vertices centre_burned false
       (script_config 1 "original_dn") [featLow] =
  ([StFilterNulls; StCrop; StFilterDN], ExitNoFeaturesAfterDN).
Proof.
  destruct (all_below_threshold_exits box_intersects has_vertices
              centre_burned false (script_config 1 "original_dn") [featLow])
    as (H1 & H2 & _).
  - discriminate.
  - intros f [<-|[]]. reflexivity.
  - split; [exact H1 | exact H2].
Defined.



Lemma fill_value_is_zero_witness :
  exists arr,
    rasterize_polygons has_vertices centre_burned false
      [featB] grid2 (2, 2) "original_dn" = Ok arr /\
    pixel arr 0 0 = Some 0.
Proof.
  eexists. split.
  - vm_compute. reflexivity.
  - destruct (fill_value_is_zero box_intersects has_vertices centre_burned
                false) as (_ & H & _).
    apply (H [featB] grid2 2 2 "original_dn"%string _ 0%nat 0%nat).
    + vm_compute. reflexivity.
    + reflexivity.
    + reflexivity.
    + intros f [<-|[]]. vm_compute. reflexivity.
Defined.

(** The two squares on the 2 x 2 grid, north-up: [featB] overwrites
    [featA] in the lower-right cell only. *)
Example painter_on_two_squares :
  rasterize_polygons has_vertices centre_burned false
    [featA; featB] grid2 (2, 2) "categorical" = Ok [[1; 1]; [1; 3]] /\
  rasterize_polygons has_vertices centre_burned false
    [featB; featA] grid2 (2, 2) "categorical" = Ok [[1; 1]; [1; 1]].
Proof. split; vm_compute; reflexivity. Qed.

(** * Further properties of the script *)

(** ** The filter steps *)

Lemma filter_twice {A : Type} (p q : A -> bool) (l : list A) :
  filter p (filter q l) = filter (fun x => q x && p x) l.
Proof.
  induction l as [|x l IH]; simpl; [reflexivity|].
  destruct (q x); simpl; [destruct (p x)|]; rewrite IH; reflexivity.
Qed.

(** X1.  [filter_null_geometries] keeps exactly the rows that have a
    geometry, so a second pass removes nothing; the count it prints as
    removed is the null count that [validate_and_report] gives for the
    input, and the statistics of the output show no null geometry and the
    input's feature count less that number. *)
Theorem null_filter_report (gdf : GeoDataFrame) :
  let out := filter_null_geometries gdf in
  (forall f, In f out <-> In f gdf /\ geometry f <> None) /\
  filter_null_geometries out = out /\
  null_removed_count gdf = Z.of_nat (null_geometries (validate_and_report gdf)) /\
  null_geometries (validate_and_report out) = 0%nat /\
  (feature_count (validate_and_report out)
   + null_geometries (validate_and_report gdf))%nat
  = feature_count (validate_and_report gdf).
Proof.
  cbv zeta.
  pose proof (filter_length_split notna isna gdf (fun x => eq_refl)) as Hlen.
  assert (Hnull : forall l, null_geometries (validate_and_report l)
                            = length (filter isna l)).
  { intros [|x l]; reflexivity. }
  assert (Hnone : filter isna (filter_null_geometries gdf) = []).
  { unfold filter_null_geometries. rewrite filter_twice.
    rewrite <- (filter_false gdf). apply filter_ext. intros f.
    unfold isna. destruct (notna f); reflexivity. }
  split; [|split; [|split; [|split]]].
  - intros f. unfold filter_null_geometries. rewrite filter_In. unfold notna.
    destruct (geometry f); split; intros [H1 H2]; split;
      try assumption; try discriminate; try reflexivity.
    exfalso. apply H2. reflexivity.
  - unfold filter_null_geometries. rewrite filter_twice.
    apply filter_ext. intros f. destruct (notna f); reflexivity.
  - rewrite Hnull. unfold null_removed_count, filter_null_geometries. lia.
  - rewrite Hnull, Hnone. reflexivity.
  - rewrite Hnull. unfold validate_and_report, filter_null_geometries. simpl.
    exact Hlen.
Qed.

Section Filters.

Variable intersects : Geometry -> BBox -> bool.

(** X2.  [crop_to_bbox] returns the frame itself when no box is given.
    With a box it keeps exactly the rows whose geometry is present and
    intersects the box, and cropping the result again by the same box
    changes nothing. *)
Theorem crop_keeps_intersecting (gdf : GeoDataFrame) (b : BBox) :
  crop_to_bbox intersects gdf None = gdf /\
  (forall f, In f (crop_to_bbox intersects gdf (Some b)) <->
             In f gdf /\ exists g, geometry f = Some g /\
                                   intersects g b = true) /\
  crop_to_bbox intersects (crop_to_bbox intersects gdf (Some b)) (Some b)
  = crop_to_bbox intersects gdf (Some b).
Proof.
  split; [reflexivity|]. split.
  - intros f. simpl. rewrite filter_In. unfold in_bbox. split.
    + intros [Hin Hb]. split; [exact Hin|].
      destruct (geometry f) as [g|]; [|discriminate]. exists g. auto.
    + intros [Hin (g & Hg & Hb)]. split; [exact Hin|]. rewrite Hg. exact Hb.
  - simpl. rewrite filter_twice. apply filter_ext. intros f.
    destruct (in_bbox intersects b f); reflexivity.
Qed.

(** X3.  Filtering by one threshold and then by another is filtering by
    the larger of the two, so the filter is idempotent; and raising the
    threshold can only remove rows. *)
Theorem threshold_filters_compose (gdf : GeoDataFrame) (t1 t2 : Z) :
  filter_by_dn_threshold (filter_by_dn_threshold gdf t1) t2
  = filter_by_dn_threshold gdf (Z.max t1 t2) /\
  filter_by_dn_threshold (filter_by_dn_threshold gdf t1) t1
  = filter_by_dn_threshold gdf t1 /\
  (t1 <= t2 ->
   forall f, In f (filter_by_dn_threshold gdf t2) ->
             In f (filter_by_dn_threshold gdf t1)).
Proof.
  assert (H : forall a b,
             filter_by_dn_threshold (filter_by_dn_threshold gdf a) b
             = filter_by_dn_threshold gdf (Z.max a b)).
  { intros a b. unfold filter_by_dn_threshold. rewrite filter_twice.
    apply filter_ext. intros f. rewrite !Z.geb_leb.
    destruct (Z.leb_spec a (DN f)); destruct (Z.leb_spec b (DN f));
      destruct (Z.leb_spec (Z.max a b) (DN f)); simpl; try reflexivity; lia. }
  split; [apply H|]. split.
  - rewrite H, Z.max_id. reflexivity.
  - intros Hle f. unfold filter_by_dn_threshold. rewrite !filter_In.
    rewrite !Z.geb_leb, !Z.leb_le. intros [Hin Hge]. split; [exact Hin|lia].
Qed.

(** X4.  The three filter steps of [main] amount to one pass over the
    loaded frame that keeps, in their original order, the rows with a
    geometry that intersects the crop box (when one is configured) and
    with a DN at least the threshold; the crop and the threshold filter
    can be exchanged. *)
Theorem filters_are_one_pass (cfg : Config) (loaded : GeoDataFrame) :
  survivors intersects cfg loaded = filter (survives intersects cfg) loaded /\
  (forall f, In f (survivors intersects cfg loaded) ->
             In f loaded /\ geometry f <> None /\ DN_THRESHOLD cfg <= DN f /\
             forall b, CROP_BBOX cfg = Some b ->
                       in_bbox intersects b f = true) /\
  crop_to_bbox intersects
    (filter_by_dn_threshold (filter_null_geometries loaded) (DN_THRESHOLD cfg))
    (CROP_BBOX cfg)
  = survivors intersects cfg loaded.
Proof.
  assert (Hone : survivors intersects cfg loaded
                 = filter (survives intersects cfg) loaded).
  { unfold survivors, survives, filter_by_dn_threshold, filter_null_geometries,
      crop_to_bbox.
    destruct (CROP_BBOX cfg) as [b|].
    - rewrite !filter_twice. apply filter_ext. intros f.
      apply andb_assoc.
    - rewrite filter_twice. apply filter_ext. intros f.
      rewrite andb_true_r. reflexivity. }
  split; [exact Hone|]. split.
  - intros f Hf. rewrite Hone in Hf. apply filter_In in Hf.
    destruct Hf as [Hin Hs]. unfold survives in Hs.
    apply andb_true_iff in Hs. destruct Hs as [Hs Hdn].
    apply andb_true_iff in Hs. destruct Hs as [Hna Hb].
    split; [exact Hin|]. split; [|split].
    + unfold notna in Hna. destruct (geometry f); [discriminate|discriminate].
    + apply Z.geb_le. exact Hdn.
    + intros b Eb. rewrite Eb in Hb. exact Hb.
  - rewrite Hone. unfold survives, filter_by_dn_threshold,
      filter_null_geometries, crop_to_bbox.
    destruct (CROP_BBOX cfg) as [b|].
    + rewrite !filter_twice. apply filter_ext. intros f.
      destruct (notna f); simpl; [|reflexivity].
      apply andb_comm.
    + rewrite filter_twice. apply filter_ext. intros f.
      rewrite andb_true_r. reflexivity.
Qed.

End Filters.

(** ** The statistics of a frame *)

(** X5.  In the statistics [validate_and_report] returns, the null count
    never exceeds the feature count, and the bounds entry is missing
    exactly when no row has a geometry (in particular for an empty frame);
    when some row has one, the entry is [total_bounds], which is four NaN
    if none of the geometries has a vertex. *)
Theorem report_statistics (gdf : GeoDataFrame) :
  let stats := validate_and_report gdf in
  (null_geometries stats <= feature_count stats)%nat /\
  (stats_bounds stats = None <-> forall f, In f gdf -> geometry f = None) /\
  ((exists f, In f gdf /\ geometry f <> None) ->
   stats_bounds stats = Some (total_bounds gdf) /\
   (all_coords gdf = [] -> total_bounds gdf = (NaN, NaN, NaN, NaN))).
Proof.
  cbv zeta.
  assert (Hex : existsb notna gdf = true <->
                exists f, In f gdf /\ geometry f <> None).
  { rewrite existsb_exists. split; intros (f & Hf & H); exists f;
      (split; [exact Hf|]); unfold notna in *;
      destruct (geometry f); try discriminate; try reflexivity.
    exfalso. apply H. reflexivity. }
  split; [|split].
  - destruct gdf as [|x l]; [apply Nat.le_refl|].
    unfold validate_and_report.
    cbn [null_geometries feature_count length Nat.ltb Nat.leb].
    pose proof (filter_length_split notna isna (x :: l) (fun _ => eq_refl)).
    simpl length in *. lia.
  - unfold validate_and_report. cbn [stats_bounds]. split.
    + intros H f Hf. destruct (geometry f) as [g|] eqn:Eg; [|reflexivity].
      exfalso.
      assert (Hne : existsb notna gdf = true).
      { apply Hex. exists f. split; [exact Hf|]. rewrite Eg. discriminate. }
      rewrite Hne, andb_true_r in H.
      destruct gdf; [destruct Hf | discriminate H].
    + intros Hall. destruct (existsb notna gdf) eqn:E.
      * destruct (proj1 Hex eq_refl) as (f & Hf & Hn).
        exfalso. apply Hn. apply Hall. exact Hf.
      * rewrite andb_false_r. reflexivity.
  - intros Hsome. split.
    + unfold validate_and_report. cbn [stats_bounds].
      apply Hex in Hsome as Hb. rewrite Hb.
      destruct Hsome as (f & Hf & _).
      destruct gdf; [destruct Hf | reflexivity].
    + intros Hc. unfold total_bounds.
      apply finite_bounds_none in Hc. rewrite Hc. reflexivity.
Qed.

Lemma report_statistics_witness :
  stats_bounds (validate_and_report [featNull; featEmpty])
  = Some (NaN, NaN, NaN, NaN).
Proof.
  destruct (report_statistics [featNull; featEmpty]) as (_ & _ & H).
  destruct H as [H1 H2].
  - exists featEmpty. split; [right; left; reflexivity | discriminate].
  - rewrite H1, (H2 eq_refl). reflexivity.
Defined.

(** ** More on the grid *)


(** X6.  On a frame without any vertex (an empty frame, or rows whose
    geometries are missing or empty) the bounds are NaN and
    [calculate_raster_params] raises the ValueError of [int(nan)],
    whatever the resolution. *)
Theorem no_vertex_no_grid (gdf : GeoDataFrame) (r : Q) :
  all_coords gdf = [] ->
  total_bounds gdf = (NaN, NaN, NaN, NaN) /\
  calculate_raster_params gdf r =
  Raise (ValueError "cannot convert float NaN to integer").
Proof.
  intros Hc. apply finite_bounds_none in Hc.
  unfold calculate_raster_params, total_bounds. rewrite Hc.
  split; reflexivity.
Qed.

Lemma no_vertex_no_grid_witness :
  total_bounds [featNull; featEmpty] = (NaN, NaN, NaN, NaN) /\
  calculate_raster_params [featNull; featEmpty] 50 =
  Raise (ValueError "cannot convert float NaN to integer").
Proof. apply (no_vertex_no_grid [featNull; featEmpty] 50). reflexivity. Defined.













(** ** More on rasterization *)

Lemma length_mapi_from {A B : Type} (f : nat -> A -> B) (l : list A) :
  forall i, length (mapi_from f i l) = length l.
Proof.
  induction l as [|x l IH]; intros i; simpl; [reflexivity|].
  rewrite IH. reflexivity.
Qed.

Lemma Forall_mapi_from {A B : Type} (f : nat -> A -> B) (P : A -> Prop)
      (Q : B -> Prop) (l : list A) :
  (forall i x, P x -> Q (f i x)) ->
  Forall P l -> forall i, Forall Q (mapi_from f i l).
Proof.
  intros HPQ H. induction H as [|x l Hx Hl IH]; intros i; simpl;
    constructor; auto.
Qed.

(** An array of [rows] rows of [cols] cells each. *)
Lemma concat_uniform_length (cols : nat) (arr : Array) :
  Forall (fun row => length row = cols) arr ->
  length (concat arr) = (length arr * cols)%nat.
Proof.
  intros H. induction H as [|row arr Hrow Harr IH]; simpl; [reflexivity|].
  rewrite length_app, IH, Hrow. reflexivity.
Qed.

Lemma fold_pick {S : Type} (b : S -> bool) (val : S -> Z) (vs : list S) :
  forall v0,
    let v := fold_left (fun v s => if b s then val s else v) vs v0 in
    v = v0 \/ exists s, In s vs /\ b s = true /\ v = val s.
Proof.
  induction vs as [|s vs IH]; intros v0; cbv zeta; simpl; [left; reflexivity|].
  destruct (IH (if b s then val s else v0)) as [E|(s' & Hin & Hb & E)].
  - rewrite E. destruct (b s) eqn:Hb; [|left; reflexivity].
    right. exists s. auto.
  - right. exists s'. auto.
Qed.

Section RasterizationMore.

Variable is_valid_geom : Geometry -> bool.
Variable burned : Geometry -> Affine -> nat -> nat -> bool.
Variable raise_without_shapes : bool.

Lemma burn_shape (t : Affine) (rows cols : nat) (vs : list (Geometry * Z)) :
  forall out,
    length out = rows -> Forall (fun row => length row = cols) out ->
    length (fold_left (burn burned t) vs out) = rows /\
    Forall (fun row => length row = cols) (fold_left (burn burned t) vs out).
Proof.
  induction vs as [|s vs IH]; intros out Hl Hf; simpl; [split; assumption|].
  apply IH.
  - unfold burn, mapi. rewrite length_mapi_from. exact Hl.
  - unfold burn, mapi.
    apply (Forall_mapi_from _ (fun row => length row = cols)); [|exact Hf].
    intros i row Hrow. rewrite length_mapi_from. exact Hrow.
Qed.

Lemma rasterize_polygons_shape (gdf : GeoDataFrame) (t : Affine)
      (rows cols : Z) (vt : string) (arr : Array) :
  rasterize_polygons is_valid_geom burned raise_without_shapes
                     gdf t (rows, cols) vt = Ok arr ->
  0 < rows /\ 0 < cols /\
  length arr = Z.to_nat rows /\
  Forall (fun row => length row = Z.to_nat cols) arr.
Proof.
  unfold rasterize_polygons. intros H.
  destruct (shapes_of vt gdf) as [l|e]; simpl in H; [|discriminate].
  apply rasterize_ok in H. destruct H as (Hr & Hc & ->).
  split; [exact Hr|]. split; [exact Hc|].
  apply burn_shape.
  - unfold full. apply repeat_length.
  - unfold full. apply Forall_forall. intros row Hrow.
    apply repeat_spec in Hrow. subst row. apply repeat_length.
Qed.

(** Where the value of a cell comes from. *)
Lemma raster_value_source (gdf : GeoDataFrame) (t : Affine)
      (rows cols : Z) (vt : string) (arr : Array) (r c : nat) (v : Z) :
  rasterize_polygons is_valid_geom burned raise_without_shapes
                     gdf t (rows, cols) vt = Ok arr ->
  pixel arr r c = Some v ->
  v = 0 \/
  exists f, In f gdf /\ covers is_valid_geom burned f t r c = true /\
            v = stored vt f.
Proof.
  unfold rasterize_polygons. intros H Hpix.
  destruct (shapes_of vt gdf) as [l|e] eqn:Hs; simpl in H; [|discriminate].
  apply shapes_of_encoded in Hs. subst l.
  apply rasterize_ok in H. destruct H as (_ & _ & ->).
  rewrite pixel_fold_burn in Hpix.
  destruct (pixel (full (Z.to_nat rows) (Z.to_nat cols) 0) r c) as [v0|] eqn:E0;
    [|discriminate].
  assert (Hv0 : v0 = 0).
  { unfold pixel, full in E0.
    destruct (nth_error (repeat (repeat 0 (Z.to_nat cols)) (Z.to_nat rows)) r)
      as [row|] eqn:Er; [|discriminate].
    apply nth_error_In, repeat_spec in Er. subst row.
    apply nth_error_In, repeat_spec in E0. exact E0. }
  subst v0. simpl in Hpix. injection Hpix as Hv.
  destruct (fold_pick (fun s : Geometry * Z => burned (fst s) t r c)
              (fun s => clamp_uint8 (snd s))
              (valid_shapes is_valid_geom
                 (map (fun f => (geometry f, encoded vt f)) gdf)) 0)
    as [E|(s & Hin & Hb & E)]; cbv zeta in E; rewrite Hv in E.
  - left. exact E.
  - right.
    apply in_valid_shapes in Hin. destruct Hin as (f & Hf & Hg & Ha & Hval).
    exists f. split; [exact Hf|]. split.
    + unfold covers. rewrite Hg. unfold accepted in Ha. rewrite Hg in Ha.
      rewrite Ha, Hb. reflexivity.
    + unfold stored. rewrite <- Hval. exact E.
Qed.

(** X11.  The array [rasterize_polygons] returns has the shape it was
    asked for: [rows] rows of [cols] cells, both positive, so its size is
    [rows * cols], which is not zero, and the count of non-zero cells the
    function prints is at most that size. *)
Theorem raster_has_requested_shape (gdf : GeoDataFrame) (t : Affine)
        (rows cols : Z) (vt : string) (arr : Array) :
  rasterize_polygons is_valid_geom burned raise_without_shapes
                     gdf t (rows, cols) vt = Ok arr ->
  0 < rows /\ 0 < cols /\
  Z.of_nat (length arr) = rows /\
  Forall (fun row => Z.of_nat (length row) = cols) arr /\
  Z.of_nat (array_size arr) = rows * cols /\
  (0 < array_size arr)%nat /\
  (count_nonzero arr <= array_size arr)%nat.
Proof.
  intros H.
  destruct (rasterize_polygons_shape _ _ _ _ _ _ H) as (Hr & Hc & Hlen & Hall).
  assert (Hsize : array_size arr = (Z.to_nat rows * Z.to_nat cols)%nat).
  { unfold array_size. rewrite (concat_uniform_length _ _ Hall), Hlen.
    reflexivity. }
  split; [exact Hr|]. split; [exact Hc|]. split; [lia|]. split.
  - eapply Forall_impl; [|exact Hall]. simpl. intros row Hrow. lia.
  - split; [rewrite Hsize; lia|]. split; [rewrite Hsize; nia|].
    unfold count_nonzero, array_size. apply filter_length_le.
Qed.

(** X12.  Every cell of an array [rasterize_polygons] returns holds a
    value between 0 and 255: it is 0, or it comes from a feature of the
    frame that claims the cell, and is then the encoded value of that
    feature when this lies in [0, 255], and 255 when it is larger. *)
Theorem raster_values_fit_a_byte (gdf : GeoDataFrame) (t : Affine)
        (rows cols : Z) (vt : string) (arr : Array) (r c : nat) (v : Z) :
  rasterize_polygons is_valid_geom burned raise_without_shapes
                     gdf t (rows, cols) vt = Ok arr ->
  pixel arr r c = Some v ->
  0 <= v <= 255 /\
  (v = 0 \/
   exists f, In f gdf /\ covers is_valid_geom burned f t r c = true /\
             (0 <= encoded vt f <= 255 -> v = encoded vt f) /\
             (255 < encoded vt f -> v = 255)).
Proof.
  intros H Hpix.
  destruct (raster_value_source _ _ _ _ _ _ _ _ _ H Hpix)
    as [E|(f & Hf & Hcov & Hv)].
  - split; [lia|]. left. exact E.
  - unfold stored in Hv. pose proof (clamp_uint8_range (encoded vt f)).
    split; [lia|]. right. exists f.
    split; [exact Hf|]. split; [exact Hcov|]. split.
    + intros Hin. rewrite Hv. apply clamp_uint8_id. exact Hin.
    + intros Hbig. rewrite Hv. apply clamp_uint8_above. exact Hbig.
Qed.

Lemma painted_binary (t : Affine) (r c : nat) (gdf : GeoDataFrame) :
  forall v,
    painted is_valid_geom burned "binary" t r c gdf v =
    if existsb (fun f => covers is_valid_geom burned f t r c) gdf
    then 1 else v.
Proof.
  induction gdf as [|f gdf IH]; intros v; [reflexivity|].
  unfold painted in *. simpl. rewrite IH.
  destruct (covers is_valid_geom burned f t r c); simpl;
    [destruct (existsb _ gdf); reflexivity | reflexivity].
Qed.

(** X13.  Under binary the array is a presence mask: a cell of the grid
    holds 1 when some feature claims it and 0 otherwise, whatever the
    DNs and the order of the features. *)
Theorem binary_is_presence_mask (gdf : GeoDataFrame) (t : Affine)
        (rows cols : Z) (arr : Array) (r c : nat) :
  rasterize_polygons is_valid_geom burned raise_without_shapes
                     gdf t (rows, cols) "binary" = Ok arr ->
  Z.of_nat r < rows -> Z.of_nat c < cols ->
  pixel arr r c =
  Some (if existsb (fun f => covers is_valid_geom burned f t r c) gdf
        then 1 else 0).
Proof.
  intros H Hr Hc.
  rewrite (rasterize_polygons_pixel _ _ _ _ _ _ _ _ _ _ _ H Hr Hc).
  rewrite painted_binary. reflexivity.
Qed.

(** X14.  Appending a feature to the frame changes the array only on the
    footprint of that feature: a cell it does not claim keeps the value it
    has without it, and a cell it claims takes its encoded value when
    this lies in [0, 255], and 255 when it is larger. *)
Theorem appended_feature_paints_its_footprint (gdf : GeoDataFrame)
        (f : Feature) (t : Affine) (rows cols : Z) (vt : string)
        (arr arr' : Array) (r c : nat) :
  rasterize_polygons is_valid_geom burned raise_without_shapes
                     gdf t (rows, cols) vt = Ok arr ->
  rasterize_polygons is_valid_geom burned raise_without_shapes
                     (gdf ++ [f]) t (rows, cols) vt = Ok arr' ->
  Z.of_nat r < rows -> Z.of_nat c < cols ->
  (covers is_valid_geom burned f t r c = false ->
   pixel arr' r c = pixel arr r c) /\
  (covers is_valid_geom burned f t r c = true ->
   (0 <= encoded vt f <= 255 -> pixel arr' r c = Some (encoded vt f)) /\
   (255 < encoded vt f -> pixel arr' r c = Some 255)).
Proof.
  intros H H' Hr Hc.
  rewrite (rasterize_polygons_pixel _ _ _ _ _ _ _ _ _ _ _ H Hr Hc).
  rewrite (rasterize_polygons_pixel _ _ _ _ _ _ _ _ _ _ _ H' Hr Hc).
  rewrite painted_app. unfold painted at 1 3. simpl.
  split; intros Hcov; rewrite Hcov; [reflexivity|]. unfold stored. split.
  - intros Hin. rewrite clamp_uint8_id by exact Hin. reflexivity.
  - intros Hbig. rewrite clamp_uint8_above by exact Hbig. reflexivity.
Qed.

End RasterizationMore.

Lemma raster_has_requested_shape_witness :
  0 < 2 /\ 0 < 2 /\
  Z.of_nat (length [[1; 1]; [1; 3]]) = 2 /\
  Forall (fun row => Z.of_nat (length row) = 2) [[1; 1]; [1; 3]] /\
  Z.of_nat (array_size [[1; 1]; [1; 3]]) = 2 * 2 /\
  (0 < array_size [[1; 1]; [1; 3]]%Z)%nat /\
  (count_nonzero [[1; 1]; [1; 3]]%Z <= array_size [[1; 1]; [1; 3]]%Z)%nat.
Proof.
  apply (raster_has_requested_shape has_vertices centre_burned false
           [featA; featB] grid2 2 2 "categorical").
  vm_compute. reflexivity.
Defined.

Lemma raster_values_fit_a_byte_witness :
  0 <= 255 <= 255 /\
  (255 = 0 \/
   exists f, In f [featA; featWide] /\
             covers has_vertices centre_burned f grid2 1 0 = true /\
             (0 <= encoded "original_dn" f <= 255 ->
              255 = encoded "original_dn" f) /\
             (255 < encoded "original_dn" f -> 255 = 255)).
Proof.
  apply (raster_values_fit_a_byte has_vertices centre_burned false
           [featA; featWide] grid2 2 2 "original_dn" [[253; 253]; [255; 253]]
           1%nat 0%nat 255).
  - vm_compute. reflexivity.
  - reflexivity.
Defined.

Lemma binary_is_presence_mask_witness :
  pixel [[0; 0]; [1; 1]] 1 1 =
  Some (if existsb (fun f => covers has_vertices centre_burned f grid2 1 1)
                   [featB; featWide]
        then 1 else 0).
Proof.
  apply (binary_is_presence_mask has_vertices centre_burned false
           [featB; featWide] grid2 2 2 [[0; 0]; [1; 1]] 1%nat 1%nat).
  - vm_compute. reflexivity.
  - reflexivity.
  - reflexivity.
Defined.

Lemma appended_feature_paints_its_footprint_witness :
  pixel [[253; 253]; [255; 253]] 0 1 = pixel [[253; 253]; [253; 253]] 0 1 /\
  pixel [[253; 253]; [255; 253]] 1 0 = Some 255.
Proof.
  assert (Ha : rasterize_polygons has_vertices centre_burned false
                 [featA] grid2 (2, 2) "original_dn"
               = Ok [[253; 253]; [253; 253]]) by (vm_compute; reflexivity).
  assert (Hb : rasterize_polygons has_vertices centre_burned false
                 ([featA] ++ [featWide]) grid2 (2, 2) "original_dn"
               = Ok [[253; 253]; [255; 253]]) by (vm_compute; reflexivity).
  split.
  - destruct (appended_feature_paints_its_footprint has_vertices
                centre_burned false [featA] featWide grid2 2 2 "original_dn"
                _ _ 0%nat 1%nat Ha Hb eq_refl eq_refl) as [H _].
    apply H. vm_compute. reflexivity.
  - destruct (appended_feature_paints_its_footprint has_vertices
                centre_burned false [featA] featWide grid2 2 2 "original_dn"
                _ _ 1%nat 0%nat Ha Hb eq_refl eq_refl) as [_ H].
    apply H; [vm_compute; reflexivity | reflexivity].
Defined.

(** ** More on the pipeline *)


Section MainMore.

Variable intersects : Geometry -> BBox -> bool.
Variable is_valid_geom : Geometry -> bool.
Variable burned : Geometry -> Affine -> nat -> nat -> bool.
Variable raise_without_shapes : bool.

(** What [main] does once rows have survived the filters. *)
Lemma main_after_filters (cfg : Config) (loaded : GeoDataFrame) :
  survivors intersects cfg loaded <> [] ->
  main intersects is_valid_geom burned raise_without_shapes cfg loaded =
  match calculate_raster_params (survivors intersects cfg loaded)
                                (PIXEL_RESOLUTION cfg) with
  | Raise e =>
      ([StFilterNulls; StCrop; StFilterDN; StRasterParams], ExitOnException e)
  | Ok (_, shape, transform) =>
      match rasterize_polygons is_valid_geom burned raise_without_shapes
              (survivors intersects cfg loaded) transform shape
              (OUTPUT_VALUE_TYPE cfg) with
      | Raise e =>
          ([StFilterNulls; StCrop; StFilterDN; StRasterParams; StRasterize],
           ExitOnException e)
      | Ok raster_array =>
          match write_geotiff raster_array transform (CRS cfg)
                              (NODATA_VALUE cfg) (COMPRESSION cfg) with
          | Raise e => (all_stages, ExitOnException e)
          | Ok tif => (all_stages, Completed tif)
          end
      end
  end.
Proof.
  intros Hs. unfold main. fold (survivors intersects cfg loaded).
  assert (Hr : crop_to_bbox intersects (filter_null_geometries loaded)
                            (CROP_BBOX cfg) <> []).
  { unfold survivors, filter_by_dn_threshold in Hs.
    eapply filter_nonempty_source. exact Hs. }
  rewrite (length_eqb_false _ Hr), (length_eqb_false _ Hs). reflexivity.
Qed.

(** A run that completes went through the grid computation and the
    rasterization of the survivors, and wrote their array. *)
Lemma main_completed_inv (cfg : Config) (loaded : GeoDataFrame)
      (tif : GeoTIFF) :
  snd (main intersects is_valid_geom burned raise_without_shapes cfg loaded)
  = Completed tif ->
  exists b rows cols tr,
    survivors intersects cfg loaded <> [] /\
    calculate_raster_params (survivors intersects cfg loaded)
                            (PIXEL_RESOLUTION cfg)
    = Ok (b, (rows, cols), tr) /\
    rasterize_polygons is_valid_geom burned raise_without_shapes
      (survivors intersects cfg loaded) tr (rows, cols)
      (OUTPUT_VALUE_TYPE cfg) = Ok (tif_data tif) /\
    write_geotiff (tif_data tif) tr (CRS cfg) (NODATA_VALUE cfg)
                  (COMPRESSION cfg) = Ok tif /\
    fst (main intersects is_valid_geom burned raise_without_shapes cfg loaded)
    = all_stages.
Proof.
  unfold main. fold (survivors intersects cfg loaded).
  destruct (Nat.eqb (length (crop_to_bbox _ _ _)) 0); [discriminate|].
  destruct (Nat.eqb (length (survivors intersects cfg loaded)) 0) eqn:Es;
    [discriminate|].
  destruct (calculate_raster_params _ _) as [[[b [rows cols]] tr]|e];
    [|discriminate].
  destruct (rasterize_polygons _ _ _ _ _ _ _) as [arr|e] eqn:Ea;
    [|discriminate].
  destruct (write_geotiff _ _ _ _ _) as [tif0|e] eqn:Ew; [|discriminate].
  simpl. intros H. injection H as <-. exists b, rows, cols, tr.
  assert (Hd : tif_data tif0 = arr).
  { unfold write_geotiff in Ew.
    destruct (in_uint8_range (NODATA_VALUE cfg)); [|discriminate].
    injection Ew as <-. reflexivity. }
  rewrite Hd. split; [|auto].
  intros E. rewrite E in Es. discriminate Es.
Qed.

(** X15.  The run ends at the check after the crop, with the steps of the
    null filter and the crop only, exactly when no row is left at that
    point.  This is what happens to a frame that is empty or whose rows
    all lack a geometry, with or without a crop box. *)
Theorem exit_after_crop (cfg : Config) (loaded : GeoDataFrame) :
  (main intersects is_valid_geom burned raise_without_shapes cfg loaded
   = ([StFilterNulls; StCrop], ExitNoFeaturesAfterCrop)
   <-> crop_to_bbox intersects (filter_null_geometries loaded) (CROP_BBOX cfg)
       = []) /\
  ((forall f, In f loaded -> geometry f = None) ->
   main intersects is_valid_geom burned raise_without_shapes cfg loaded
   = ([StFilterNulls; StCrop], ExitNoFeaturesAfterCrop)).
Proof.
  assert (Hiff : main intersects is_valid_geom burned raise_without_shapes
                      cfg loaded
                 = ([StFilterNulls; StCrop], ExitNoFeaturesAfterCrop)
                 <-> crop_to_bbox intersects (filter_null_geometries loaded)
                                  (CROP_BBOX cfg) = []).
  { unfold main. split.
    - destruct (crop_to_bbox _ _ _) as [|f l]; [reflexivity|]. simpl.
      destruct (Nat.eqb _ 0); [discriminate|].
      destruct (calculate_raster_params _ _) as [[[b sh] tr]|e];
        [|discriminate].
      destruct (rasterize_polygons _ _ _ _ _ _ _); [|discriminate].
      destruct (write_geotiff _ _ _ _ _); discriminate.
    - intros ->. reflexivity. }
  split; [exact Hiff|].
  intros Hnull. apply Hiff.
  assert (E : filter_null_geometries loaded = []).
  { unfold filter_null_geometries.
    destruct (filter notna loaded) as [|f l] eqn:E; [reflexivity|]. exfalso.
    assert (Hin : In f (filter notna loaded)) by (rewrite E; left; reflexivity).
    apply filter_In in Hin. destruct Hin as [Hin Hna].
    unfold notna in Hna. rewrite (Hnull f Hin) in Hna. discriminate. }
  rewrite E. destruct (CROP_BBOX cfg); reflexivity.
Qed.

(** X17.  The file of a completed run matches the grid of step 5: its
    height and width are the rows and columns computed from the
    survivors, both positive, its transform is the computed one, its
    array is the one [rasterize_polygons] returned for the survivors, and
    it carries the configured CRS, NoData value and compression. *)
Theorem written_file_matches_grid (cfg : Config) (loaded : GeoDataFrame)
        (tif : GeoTIFF) :
  snd (main intersects is_valid_geom burned raise_without_shapes cfg loaded)
  = Completed tif ->
  exists b rows cols,
    calculate_raster_params (survivors intersects cfg loaded)
                            (PIXEL_RESOLUTION cfg)
    = Ok (b, (rows, cols), tif_transform tif) /\
    rasterize_polygons is_valid_geom burned raise_without_shapes
      (survivors intersects cfg loaded) (tif_transform tif) (rows, cols)
      (OUTPUT_VALUE_TYPE cfg) = Ok (tif_data tif) /\
    0 < rows /\ 0 < cols /\
    Z.of_nat (tif_height tif) = rows /\ Z.of_nat (tif_width tif) = cols /\
    tif_crs tif = CRS cfg /\ tif_nodata tif = NODATA_VALUE cfg /\
    tif_compress tif = COMPRESSION cfg.
Proof.
  intros H. apply main_completed_inv in H.
  destruct H as (b & rows & cols & tr & _ & Hcalc & Hrp & Htif & _).
  destruct (rasterize_polygons_shape _ _ _ _ _ _ _ _ _ Hrp)
    as (Hr & Hc & Hlen & Hall).
  unfold write_geotiff in Htif.
  destruct (in_uint8_range (NODATA_VALUE cfg)); [|discriminate].
  injection Htif as Htif.
  exists b, rows, cols. rewrite <- Htif. cbn [tif_data tif_transform tif_height
    tif_width tif_crs tif_nodata tif_compress].
  split; [exact Hcalc|]. split; [exact Hrp|].
  split; [exact Hr|]. split; [exact Hc|]. split; [lia|].
  split; [|auto].
  destruct (tif_data tif) as [|row rest]; [simpl in Hlen; lia|].
  simpl. inversion Hall as [|? ? Hrow _]. lia.
Qed.

End MainMore.

Section MainEdges.

Variable intersects : Geometry -> BBox -> bool.
Variable is_valid_geom : Geometry -> bool.
Variable burned : Geometry -> Affine -> nat -> nat -> bool.
Variable raise_without_shapes : bool.


(** X19.  In a completed run under original_dn with a threshold of at most
    255, every cell of the array written is either 0 or lies between the
    threshold and 255: it is the DN of a survivor, which the threshold
    filter bounds from below, stored as a byte. *)
Theorem completed_original_dn_values (cfg : Config) (loaded : GeoDataFrame)
        (tif : GeoTIFF) (r c : nat) (v : Z) :
  OUTPUT_VALUE_TYPE cfg = "original_dn"%string ->
  DN_THRESHOLD cfg <= 255 ->
  snd (main intersects is_valid_geom burned raise_without_shapes cfg loaded)
  = Completed tif ->
  pixel (tif_data tif) r c = Some v ->
  v = 0 \/ (DN_THRESHOLD cfg <= v /\ 0 <= v <= 255).
Proof.
  intros Hvt Ht Hrun Hpix. apply main_completed_inv in Hrun.
  destruct Hrun as (b & rows & cols & tr & _ & _ & Hrp & _ & _).
  destruct (raster_value_source _ _ _ _ _ _ _ _ _ _ _ _ Hrp Hpix)
    as [H0|(f & Hf & _ & Hv)]; [left; exact H0|].
  right.
  unfold survivors, filter_by_dn_threshold in Hf. apply filter_In in Hf.
  destruct Hf as [_ Hdn]. apply Z.geb_le in Hdn.
  rewrite Hvt in Hv. unfold stored, encoded, clamp_uint8 in Hv.
  simpl in Hv. lia.
Qed.



(** X22.  When rows survive the filters but none of their geometries has
    a vertex, the run stops in the grid computation with the ValueError
    of [int(nan)]. *)
Theorem empty_geometries_fail_in_grid (cfg : Config) (loaded : GeoDataFrame) :
  survivors intersects cfg loaded <> [] ->
  all_coords (survivors intersects cfg loaded) = [] ->
  main intersects is_valid_geom burned raise_without_shapes cfg loaded
  = ([StFilterNulls; StCrop; StFilterDN; StRasterParams],
     ExitOnException (ValueError "cannot convert float NaN to integer")).
Proof.
  intros Hs Hc.
  rewrite (main_after_filters intersects is_valid_geom burned
             raise_without_shapes cfg loaded Hs).
  apply finite_bounds_none in Hc.
  unfold calculate_raster_params, total_bounds. rewrite Hc. reflexivity.
Qed.

End MainEdges.

(** ** The further statements at concrete inputs *)

Lemma exit_after_crop_witness :
  main box_intersects has_vertices centre_burned false
       (script_config 50 "original_dn") [featNull; featNull]
  = ([StFilterNulls; StCrop], ExitNoFeaturesAfterCrop).
Proof.
  destruct (exit_after_crop box_intersects has_vertices centre_burned false
              (script_config 50 "original_dn") [featNull; featNull])
    as [_ H].
  apply H. intros f [<-|[<-|[]]]; reflexivity.
Defined.

Lemma written_file_matches_grid_witness :
  exists b rows cols,
    calculate_raster_params
      (survivors box_intersects (script_config 1 "original_dn")
                 [featA; featLow; featB]) 1
    = Ok (b, (rows, cols), tif_transform tif_AB) /\
    rasterize_polygons has_vertices centre_burned false
      (survivors box_intersects (script_config 1 "original_dn")
                 [featA; featLow; featB])
      (tif_transform tif_AB) (rows, cols) "original_dn"
    = Ok (tif_data tif_AB) /\
    0 < rows /\ 0 < cols /\
    Z.of_nat (tif_height tif_AB) = rows /\
    Z.of_nat (tif_width tif_AB) = cols /\
    tif_crs tif_AB = "EPSG:32631"%string /\ tif_nodata tif_AB = 0 /\
    tif_compress tif_AB = "lzw"%string.
Proof.
  apply (written_file_matches_grid box_intersects has_vertices centre_burned
           false (script_config 1 "original_dn") [featA; featLow; featB]).
  vm_compute. reflexivity.
Defined.


Lemma completed_original_dn_values_witness :
  255 = 0 \/ (253 <= 255 /\ 0 <= 255 <= 255).
Proof.
  apply (completed_original_dn_values box_intersects has_vertices
           centre_burned false (script_config 1 "original_dn")
           [featA; featLow; featB] tif_AB 1%nat 1%nat 255).
  - reflexivity.
  - simpl. lia.
  - vm_compute. reflexivity.
  - reflexivity.
Defined.



Lemma empty_geometries_fail_in_grid_witness :
  main box_intersects has_vertices centre_burned false
       (script_config 50 "original_dn") [featEmpty]
  = ([StFilterNulls; StCrop; StFilterDN; StRasterParams],
     ExitOnException (ValueError "cannot convert float NaN to integer")).
Proof.
  apply (empty_geometries_fail_in_grid box_intersects has_vertices
           centre_burned false (script_config 50 "original_dn") [featEmpty]).
  - discriminate.
  - reflexivity.
Defined.
